(** * todoist-export: the export pipeline of [src/app.js]

    A shallow embedding of the data-shaping functions of the relay
    ([escapeCommas], [convertProjectNames], [convertUserNames],
    [fetchCompleted], [renderErrorPage], [exportData]) and the properties
    the specification states about them.

    The payloads are deserialized JSON documents, so the embedding works on
    dynamically typed JavaScript values.  Every property read, method call
    and conversion of the source is written out with the outcome JavaScript
    gives it, including the [TypeError]s of reads on [null]/[undefined] and
    of calls of missing methods. *)

From Stdlib Require Import ZArith DecimalString DecimalZ DecimalPos Ascii String.
From stdpp Require Import gmap strings list.

Local Open Scope string_scope.
Set Warnings "-register-all".

(** ** JavaScript values *)

(** The values a JSON payload is made of, plus [undefined].  Numbers are the
    integer-valued ones (ids, counters, lengths): [VNum n] stands for a
    Number when [n] is a safe integer, and a number with a fraction is no
    value of the embedding.  An object is its list of own properties in
    property order, each key occurring once; a string is its sequence of
    code units. *)
Inductive value : Type :=
  | VUndef
  | VNull
  | VBool (b : bool)
  | VNum (n : Z)
  | VStr (s : string)
  | VArr (l : list value)
  | VObj (o : list (string * value)).

(** What a [throw] carries: a [TypeError] raised by the runtime, or the
    reason of a rejected request. *)
Inductive thrown : Type :=
  | TypeError
  | Rejected (reason : value).

(** The result of evaluating an expression: a value, an exception, or
    [Beyond] where the evaluation leaves the fragment of the language
    embedded here (a read that reaches a built-in member inherited from a
    prototype, a comparison that has to parse a string as a number). *)
Inductive outcome (A : Type) : Type :=
  | Ok (a : A)
  | Throw (e : thrown)
  | Beyond.

Arguments Ok {A} a.
Arguments Throw {A} e.
Arguments Beyond {A}.

Definition bind {A B : Type} (m : outcome A) (f : A -> outcome B) : outcome B :=
  match m with
  | Ok a => f a
  | Throw e => Throw e
  | Beyond => Beyond
  end.

Notation "x <- m ;; k" := (bind m (fun x => k))
  (at level 100, m at next level, right associativity).

Fixpoint mapM {A B : Type} (f : A -> outcome B) (l : list A) : outcome (list B) :=
  match l with
  | [] => Ok []
  | a :: t => b <- f a ;; r <- mapM f t ;; Ok (b :: r)
  end.

Fixpoint foldM {A B : Type} (f : B -> A -> outcome B) (acc : B) (l : list A)
  : outcome B :=
  match l with
  | [] => Ok acc
  | a :: t => acc' <- f acc a ;; foldM f acc' t
  end.

(** ** Conversions *)

Definition truthy (v : value) : bool :=
  match v with
  | VUndef | VNull => false
  | VBool b => b
  | VNum n => negb (n =? 0)%Z
  | VStr s => negb (String.eqb s "")
  | VArr _ | VObj _ => true
  end.

Definition nullish (v : value) : bool :=
  match v with
  | VUndef | VNull => true
  | _ => false
  end.

(** [a || b] *)
Definition js_or (a b : value) : value := if truthy a then a else b.

(** [Number.MAX_SAFE_INTEGER], 2^53 - 1: up to it every integer is a Number
    of its own. *)
Definition MAX_SAFE_INTEGER : Z := 9007199254740991.

Definition safe_integer (n : Z) : bool := (Z.abs n <=? MAX_SAFE_INTEGER)%Z.

(** The decimal numeral of an integer: its digits, after a minus sign when
    it is negative. *)
Definition decimal (n : Z) : string := NilZero.string_of_int (Z.to_int n).

(** [Number::toString].  A safe integer prints as its decimal numeral.
    Above the safe integers the digits printed are those of the nearest
    Number and, from 10^21 on, an exponent follows them: that lies outside
    the embedding. *)
Definition number_to_string (n : Z) : outcome string :=
  if safe_integer n then Ok (decimal n) else Beyond.

Fixpoint obj_get (k : string) (o : list (string * value)) : option value :=
  match o with
  | [] => None
  | (k', v) :: t => if String.eqb k' k then Some v else obj_get k t
  end.

(** Assignment to a property: an existing key keeps its place, a new key
    goes last. *)
Fixpoint obj_set (k : string) (v : value) (o : list (string * value))
  : list (string * value) :=
  match o with
  | [] => [(k, v)]
  | (k', v') :: t =>
      if String.eqb k' k then (k', v) :: t else (k', v') :: obj_set k v t
  end.

(** The abstract operation ToString (template literals, property keys,
    [join], query parameters).  A JSON object has no callable member of its
    own, so an own [toString] property makes the conversion throw. *)
Fixpoint to_string (v : value) : outcome string :=
  match v with
  | VUndef => Ok "undefined"
  | VNull => Ok "null"
  | VBool b => Ok (if b then "true" else "false")
  | VNum n => number_to_string n
  | VStr s => Ok s
  | VArr l =>
      pieces <- (fix strings (l : list value) : outcome (list string) :=
                   match l with
                   | [] => Ok []
                   | e :: t =>
                       s <- match e with
                            | VUndef | VNull => Ok ""
                            | _ => to_string e
                            end ;;
                       r <- strings t ;;
                       Ok (s :: r)
                   end) l ;;
      Ok (String.concat "," pieces)
  | VObj o =>
      match obj_get "toString" o with
      | None => Ok "[object Object]"
      | Some _ => Throw TypeError
      end
  end.

(** The string an array element contributes to [join]. *)
Definition element_string (e : value) : outcome string :=
  match e with
  | VUndef | VNull => Ok ""
  | _ => to_string e
  end.

(** [Array.prototype.join] *)
Definition array_join (sep : string) (l : list value) : outcome string :=
  pieces <- mapM element_string l ;;
  Ok (String.concat sep pieces).

(** The method call [v.toString()]. *)
Definition call_toString (v : value) : outcome string :=
  match v with
  | VUndef | VNull => Throw TypeError
  | _ => to_string v
  end.

(** The method call [v.join(sep)]: only arrays have the method. *)
Definition call_join (sep : string) (v : value) : outcome string :=
  match v with
  | VArr l => array_join sep l
  | _ => Throw TypeError
  end.

(** The receiver of [v.map(f)] and [v.reduce(f, init)]: only arrays have the
    methods. *)
Definition array_receiver (v : value) : outcome (list value) :=
  match v with
  | VArr l => Ok l
  | _ => Throw TypeError
  end.

(** ** Property reads *)

(** The members every object literal inherits from [Object.prototype]. *)
Definition inherited_names : list string :=
  [ "constructor"; "toString"; "toLocaleString"; "valueOf";
    "hasOwnProperty"; "isPrototypeOf"; "propertyIsEnumerable";
    "__proto__"; "__defineGetter__"; "__defineSetter__";
    "__lookupGetter__"; "__lookupSetter__" ].

Definition inherited (k : string) : bool :=
  existsb (String.eqb k) inherited_names.

(** The names the program reads with a fixed identifier; none of them is a
    member of a built-in prototype. *)
Definition field_names : list string :=
  [ "items"; "projects"; "collaborators"; "user"; "is_premium"; "completed";
    "id"; "name"; "full_name"; "project_id"; "assigned_by_uid";
    "added_by_uid"; "user_id"; "labels"; "content"; "next_cursor";
    "results"; "response"; "status"; "statusText"; "config"; "data";
    "message" ].

(** A read that found no own property [k]: [undefined], unless [k] names an
    inherited built-in member. *)
Definition read_member (own : option value) (k : string) : outcome value :=
  match own with
  | Some v => Ok v
  | None => if inherited k then Beyond else Ok VUndef
  end.

(** The read [v.k]. *)
Definition get_field (k : string) (v : value) : outcome value :=
  match v with
  | VUndef | VNull => Throw TypeError
  | VObj o => read_member (obj_get k o) k
  | VArr l =>
      if String.eqb k "length" then Ok (VNum (Z.of_nat (length l)))
      else if existsb (String.eqb k) field_names then Ok VUndef
      else Beyond
  | VStr s =>
      if String.eqb k "length" then Ok (VNum (Z.of_nat (String.length s)))
      else if existsb (String.eqb k) field_names then Ok VUndef
      else Beyond
  | VBool _ | VNum _ =>
      if String.eqb k "length" || existsb (String.eqb k) field_names
      then Ok VUndef else Beyond
  end.

(** The own enumerable properties [{...v}] copies; those of an array or a
    string are its elements under their indices. *)
Definition spread (v : value) : list (string * value) :=
  match v with
  | VObj o => o
  | VArr l => imap (fun i e => (decimal (Z.of_nat i), e)) l
  | VStr s =>
      imap (fun i c => (decimal (Z.of_nat i), VStr (String c "")))
           (list_ascii_of_string s)
  | _ => []
  end.

(** The comparison [v > 0]. *)
Definition gt_zero (v : value) : outcome bool :=
  match v with
  | VNum n => Ok (0 <? n)%Z
  | VBool b => Ok b
  | VUndef | VNull => Ok false
  | VObj o =>
      match obj_get "toString" o with
      | None => Ok false
      | Some _ => Throw TypeError
      end
  | VStr _ | VArr _ => Beyond
  end.

(** ** The CSV field sanitizer *)

Definition dquote : string := String (ascii_of_nat 34) "".

(** The template literal that puts [s] between two quote characters. *)
Definition quoted (s : string) : string := dquote ++ s ++ dquote.

(** The [labels:] expression of [escapeCommas]:
    [item.labels?.length > 0 ? `"${item.labels.join(",")}"` : null]. *)
Definition escaped_labels (item : value) : outcome value :=
  labels <- get_field "labels" item ;;
  nonempty <- (if nullish labels then gt_zero VUndef
               else len <- get_field "length" labels ;; gt_zero len) ;;
  if (nonempty : bool) then
    labels <- get_field "labels" item ;;
    joined <- call_join "," labels ;;
    Ok (VStr (quoted joined))
  else Ok VNull.

(** The [content:] expression of [escapeCommas]:
    [`"${item.content.toString()}"`]. *)
Definition escaped_content (item : value) : outcome value :=
  content <- get_field "content" item ;;
  text <- call_toString content ;;
  Ok (VStr (quoted text)).

(** The callback of the [map] in [escapeCommas]. *)
Definition escape_item (item : value) : outcome value :=
  let copy := spread item in
  labels <- escaped_labels item ;;
  content <- escaped_content item ;;
  Ok (VObj (obj_set "content" content (obj_set "labels" labels copy))).

Definition escapeCommas (syncData : value) : outcome (list value) :=
  items <- get_field "items" syncData ;;
  l <- array_receiver items ;;
  mapM escape_item l.

(** ** The denormalizer *)

(** The dynamic read [names[key]] on a lookup object built by [reduce]. *)
Definition names_lookup (names : gmap string value) (key : string)
  : outcome value :=
  read_member (names !! key) key.

(** Property assignment [target.k = v]: on a primitive it has no effect,
    on an array it would add a named member. *)
Definition set_field (k : string) (v : value) (target : value) : outcome value :=
  match target with
  | VUndef | VNull => Throw TypeError
  | VObj o => Ok (VObj (obj_set k v o))
  | VArr _ => Beyond
  | _ => Ok target
  end.

(** The reducer [(acc, project) => ({ ...acc, [project.id]: project.name })]. *)
Definition add_project_name (acc : gmap string value) (project : value)
  : outcome (gmap string value) :=
  id <- get_field "id" project ;;
  key <- to_string id ;;
  name <- get_field "name" project ;;
  Ok (<[key := name]> acc).

Definition project_table (syncData : value) : outcome (gmap string value) :=
  projects <- get_field "projects" syncData ;;
  l <- array_receiver projects ;;
  foldM add_project_name ∅ l.

(** The expression [projectNames[item.project_id]]. *)
Definition project_name (projectNames : gmap string value) (item : value)
  : outcome value :=
  id <- get_field "project_id" item ;;
  key <- to_string id ;;
  names_lookup projectNames key.

(** The callback [(item) => ({ ...item, project_id: ... })]. *)
Definition resolve_project (projectNames : gmap string value) (item : value)
  : outcome value :=
  let copy := spread item in
  name <- project_name projectNames item ;;
  Ok (VObj (obj_set "project_id" name copy)).

Definition convertProjectNames (syncData : value) : outcome (list value) :=
  projectNames <- project_table syncData ;;
  items <- get_field "items" syncData ;;
  l <- array_receiver items ;;
  mapM (resolve_project projectNames) l.

(** The reducer of [convertUserNames]. *)
Definition add_user_name (acc : gmap string value) (collaborator : value)
  : outcome (gmap string value) :=
  id <- get_field "id" collaborator ;;
  key <- to_string id ;;
  name <- get_field "full_name" collaborator ;;
  Ok (<[key := name]> acc).

Definition user_table (syncData : value) : outcome (gmap string value) :=
  collaborators <- get_field "collaborators" syncData ;;
  l <- array_receiver collaborators ;;
  foldM add_user_name ∅ l.

(** The expression [userNames[item.role] || null]. *)
Definition user_name (userNames : gmap string value) (role : string)
  (item : value) : outcome value :=
  id <- get_field role item ;;
  key <- to_string id ;;
  name <- names_lookup userNames key ;;
  Ok (js_or name VNull).

(** The callback of the [map] in [convertUserNames]. *)
Definition resolve_users (userNames : gmap string value) (item : value)
  : outcome value :=
  let copy := spread item in
  assigner <- user_name userNames "assigned_by_uid" item ;;
  adder <- user_name userNames "added_by_uid" item ;;
  owner <- user_name userNames "user_id" item ;;
  Ok (VObj (obj_set "user_id" owner
             (obj_set "added_by_uid" adder
               (obj_set "assigned_by_uid" assigner copy)))).

Definition convertUserNames (syncData : value) : outcome (list value) :=
  userNames <- user_table syncData ;;
  items <- get_field "items" syncData ;;
  l <- array_receiver items ;;
  mapM (resolve_users userNames) l.

(** [syncData.items = f(syncData); syncData.items = g(syncData)], the way
    [exportData] chains the transforms. *)
Definition reassign_items (f : value -> outcome (list value)) (syncData : value)
  : outcome value :=
  items <- f syncData ;;
  set_field "items" (VArr items) syncData.

Definition items_after (f g : value -> outcome (list value)) (syncData : value)
  : outcome (list value) :=
  syncData' <- reassign_items f syncData ;;
  g syncData'.

(** ** Strings of the format parameter *)

(** [s.includes(pat)] *)
Fixpoint includes (pat s : string) : bool :=
  String.prefix pat s ||
  match s with
  | EmptyString => false
  | String _ s' => includes pat s'
  end.

(** [s.replace(pat, by)] with a string pattern: the first occurrence only. *)
Fixpoint replace_first (pat by_ s : string) : string :=
  if String.prefix pat s
  then by_ ++ String.substring (String.length pat)
                               (String.length s - String.length pat) s
  else match s with
       | EmptyString => EmptyString
       | String c s' => String c (replace_first pat by_ s')
       end.

(** The comparison [v === "s"]. *)
Definition is_string (s : string) (v : value) : bool :=
  match v with
  | VStr t => String.eqb t s
  | _ => false
  end.

(** The method call [v.includes(pat)], on a string or on an array. *)
Definition call_includes (pat : string) (v : value) : outcome bool :=
  match v with
  | VStr s => Ok (includes pat s)
  | VArr l =>
      Ok (existsb (is_string pat) l)
  | _ => Throw TypeError
  end.

(** The method call [v.replace(pat, by)]: only strings have the method. *)
Definition call_replace (pat by_ : string) (v : value) : outcome value :=
  match v with
  | VStr s => Ok (VStr (replace_first pat by_ s))
  | _ => Throw TypeError
  end.

(** The method call [v.concat(arg)], on an array or on a string. *)
Definition call_concat (v arg : value) : outcome value :=
  match v with
  | VArr l =>
      match arg with
      | VArr l' => Ok (VArr (l ++ l'))
      | _ => Ok (VArr (l ++ [arg]))
      end
  | VStr s => t <- to_string arg ;; Ok (VStr (s ++ t))
  | _ => Throw TypeError
  end.

Definition COMPL_MAX_PAGE_SIZE : Z := 200.
Definition FORMAT_SUFFIX_INCLUDE_ARCHIVED : string := "_all".

(** ** Requests, responses and the program monad *)

(** What [axios] is asked: the method, the path under
    [https://api.todoist.com/api/v1/], the [Authorization] header and the
    body or the query string. *)
Inductive request : Type :=
  | Post (api : string) (authorization : string) (data : value)
  | Get (path : string) (authorization : string) (query : list (string * string)).

(** What [axios] answers: a response with its [data], or a rejection. *)
Inductive reply : Type :=
  | Resolved (data : value)
  | Failed (error : value).

(** The observable steps of a run: requests sent and errors logged. *)
Inductive event : Type :=
  | Requested (r : request)
  | Logged (v : value)
  | LoggedThrown (e : thrown).

(** What was sent on the express response. *)
Inductive sent : Type :=
  | Rendered (view : string) (message : value) (error : value)
  | Json (body : value)
  | Text (body : value).

Record response : Type := {
  status : value;
  attachment : option string;
  body : option sent
}.

(** What the CSV encoder does with the rows: it calls back with
    [(error, csv)] or throws. *)
Inductive conversion : Type :=
  | CalledBack (error csv : value)
  | Threw (error : value).

Section Orchestrator.

(** The remote API, as a transition system on an arbitrary state. *)
Context {St : Type}.
Variable axios : St -> request -> reply * St.
Variable json2csv : value -> conversion.
Variable IS_PRODUCTION : bool.

Record world : Type := {
  upstream : St;
  events : list event;
  res : response
}.

(** The world after a step that moved the remote API to [st] and added the
    events [ev]. *)
Definition moved (w : world) (st : St) (ev : list event) : world :=
  {| upstream := st; events := events w ++ ev; res := res w |}.

Definition prog (A : Type) : Type := world -> outcome A * world.

Definition ret {A : Type} (a : A) : prog A := fun w => (Ok a, w).

Definition lift {A : Type} (m : outcome A) : prog A := fun w => (m, w).

Definition pbind {A B : Type} (m : prog A) (f : A -> prog B) : prog B :=
  fun w =>
    match m w with
    | (Ok a, w') => f a w'
    | (Throw e, w') => (Throw e, w')
    | (Beyond, w') => (Beyond, w')
    end.

Notation "x <~ m ;; k" := (pbind m (fun x => k))
  (at level 100, m at next level, right associativity).

(** [try { m } catch (error) { handler }] *)
Definition try_catch {A : Type} (m : prog A) (handler : thrown -> prog A)
  : prog A :=
  fun w =>
    match m w with
    | (Throw e, w') => handler e w'
    | r => r
    end.

Definition emit (e : event) : prog unit :=
  fun w => (Ok tt, {| upstream := upstream w;
                      events := events w ++ [e];
                      res := res w |}).

Definition update_res (f : response -> response) : prog unit :=
  fun w => (Ok tt, {| upstream := upstream w;
                      events := events w;
                      res := f (res w) |}).

(** [await axios(request)] *)
Definition send (r : request) : prog value :=
  fun w =>
    let '(answer, st) := axios (upstream w) r in
    let w' := {| upstream := st;
                 events := events w ++ [Requested r];
                 res := res w |} in
    match answer with
    | Resolved data => (Ok data, w')
    | Failed error => (Throw (Rejected error), w')
    end.

(** [res.status(code)], [res.attachment(name)], [res.render], [res.json],
    [res.send] *)
Definition res_status (code : value) : prog unit :=
  update_res (fun r => {| status := code;
                          attachment := attachment r;
                          body := body r |}).

Definition res_attachment (name : string) : prog unit :=
  update_res (fun r => {| status := status r;
                          attachment := Some name;
                          body := body r |}).

Definition res_body (b : sent) : prog unit :=
  update_res (fun r => {| status := status r;
                          attachment := attachment r;
                          body := Some b |}).

(** The header ["Bearer " + token]. *)
Definition bearer (token : value) : outcome string :=
  t <- to_string token ;; Ok ("Bearer " ++ t).

Definition callApi (api : string) (parameters : value) : prog value :=
  token <~ lift (get_field "token" parameters) ;;
  authorization <~ lift (bearer token) ;;
  send (Post api authorization parameters).

(** The query string [callRestApi] builds from the entries of [params]
    that are neither [null] nor [undefined]. *)
Definition query_of (params : list (string * value))
  : outcome (list (string * string)) :=
  mapM (fun '(key, val) => s <- to_string val ;; Ok (key, s))
       (filter (fun '(_, val) => nullish val = false) params).

Definition callRestApi (path : string) (token : value)
  (params : list (string * value)) : prog value :=
  query <~ lift (query_of params) ;;
  authorization <~ lift (bearer token) ;;
  send (Get path authorization query).

Definition renderErrorPage (message error : value) : prog unit :=
  what <~ lift (if truthy error
                then m <- get_field "message" error ;;
                     Ok (if truthy m then m else error)
                else Ok message) ;;
  _ <~ emit (Logged what) ;;
  code <~ lift (if truthy error
                then s <- get_field "status" error ;; Ok (js_or s (VNum 500))
                else Ok (VNum 500)) ;;
  _ <~ res_status code ;;
  res_body (Rendered "error" message
              (if IS_PRODUCTION then VUndef else error)).

(** The [catch] block of [fetchCompleted]. *)
Definition log_fetch_failure (error : thrown) : prog unit :=
  match error with
  | TypeError => emit (LoggedThrown TypeError)
  | Rejected reason =>
      r <~ lift (get_field "response" reason) ;;
      if truthy r then
        st <~ lift (get_field "status" r) ;;
        text <~ lift (get_field "statusText" r) ;;
        config <~ lift (get_field "config" r) ;;
        data <~ lift (get_field "data" r) ;;
        emit (Logged (VObj [("status", st); ("statusText", text);
                            ("config", config); ("data", data)]))
      else emit (LoggedThrown error)
  end.

(** The parameters of one page request. *)
Definition completed_params (cursor : value) : list (string * value) :=
  let params := [("limit", VNum COMPL_MAX_PAGE_SIZE)] in
  if truthy cursor then obj_set "cursor" cursor params else params.

(** The [try] statement of [fetchCompleted]: the page, or [None] when the
    request failed and the [catch] block has logged the failure. *)
Definition fetch_page (token cursor : value) : prog (option value) :=
  try_catch
    (page <~ callRestApi "tasks/completed" token (completed_params cursor) ;;
     ret (Some page))
    (fun error => _ <~ log_fetch_failure error ;; ret None).

(** [fetchCompleted(token, cursor = null)].  The recursion follows the
    cursors the remote API returns, so the embedding carries a bound on
    its depth; [Beyond] is the outcome when the bound is reached. *)
Fixpoint fetchCompleted (fuel : nat) (token cursor : value) : prog value :=
  match fuel with
  | O => lift Beyond
  | S fuel' =>
      fetched <~ fetch_page token cursor ;;
      match fetched with
      | None => ret (VObj [("results", VArr [])])
      | Some page =>
          next <~ lift (get_field "next_cursor" page) ;;
          if truthy next then
            remainder <~ fetchCompleted fuel' token next ;;
            results <~ lift (get_field "results" page) ;;
            rest <~ lift (get_field "results" remainder) ;;
            all <~ lift (call_concat (js_or results (VArr [])) rest) ;;
            ret (VObj [("results", all)])
          else
            results <~ lift (get_field "results" page) ;;
            ret (VObj [("results", js_or results (VArr []))])
      end
  end.

(** The block of [exportData] guarded by
    [format.includes(FORMAT_SUFFIX_INCLUDE_ARCHIVED)]: [None] when it
    returned after rendering the error page, else the new values of
    [format] and [syncData]. *)
Definition include_archived (fuel : nat) (token format syncData : value)
  : prog (option (value * value)) :=
  user <~ lift (get_field "user" syncData) ;;
  premium <~ lift (get_field "is_premium" user) ;;
  if negb (truthy premium) then
    _ <~ renderErrorPage
           (VStr "Must be Todoist Premium to export archived items.")
           VUndef ;;
    ret None
  else
    format' <~ lift (call_replace FORMAT_SUFFIX_INCLUDE_ARCHIVED "" format) ;;
    completedData <~ fetchCompleted fuel token VNull ;;
    syncData1 <~ lift (set_field "completed" completedData syncData) ;;
    items <~ lift (get_field "items" syncData1) ;;
    results <~ lift (get_field "results" completedData) ;;
    merged <~ lift (call_concat items (js_or results (VArr []))) ;;
    syncData2 <~ lift (set_field "items" merged syncData1) ;;
    ret (Some (format', syncData2)).

(** The callback handed to [json2csv], and the [catch] around the call. *)
Definition send_csv (rows : value) : prog unit :=
  match json2csv rows with
  | CalledBack error csv =>
      if truthy error
      then renderErrorPage (VStr "CSV export error.") error
      else _ <~ res_attachment "todoist.csv" ;; res_body (Text csv)
  | Threw error => renderErrorPage (VStr "CSV export error.") error
  end.

(** The format branch that ends [exportData]. *)
Definition respond (format syncData : value) : prog unit :=
  if is_string "json" format then
    _ <~ res_attachment "todoist.json" ;;
    res_body (Json syncData)
  else if is_string "csv" format then
    syncData1 <~ lift (reassign_items convertProjectNames syncData) ;;
    syncData2 <~ lift (reassign_items convertUserNames syncData1) ;;
    syncData3 <~ lift (reassign_items escapeCommas syncData2) ;;
    rows <~ lift (get_field "items" syncData3) ;;
    send_csv rows
  else ret tt.

(** The body of the sync request: [resource_types] is the text
    [["all"]] with its two quote characters. *)
Definition sync_parameters (token : value) : value :=
  VObj [("token", token);
        ("sync_token", VStr "*");
        ("resource_types", VStr ("[" ++ dquote ++ "all" ++ dquote ++ "]"))].

(** [exportData(res, token, format = "csv")] *)
Definition exportData (fuel : nat) (token format : value) : prog unit :=
  let format := match format with VUndef => VStr "csv" | _ => format end in
  syncData <~ callApi "sync" (sync_parameters token) ;;
  match syncData with
  | VUndef => renderErrorPage (VStr "Could not fetch data from Todoist.") VUndef
  | _ =>
      archived <~ lift (call_includes FORMAT_SUFFIX_INCLUDE_ARCHIVED format) ;;
      if (archived : bool) then
        merged <~ include_archived fuel token format syncData ;;
        match merged with
        | None => ret tt
        | Some (format', syncData') => respond format' syncData'
        end
      else respond format syncData
  end.

(** *** What the remote API does along a run *)

(** The sync request for [token] is answered with [syncData]. *)
Definition sync_answer (token : value) (st : St) (syncData : value)
  (st' : St) : Prop :=
  exists authorization,
    bearer token = Ok authorization /\
    axios st (Post "sync" authorization (sync_parameters token))
    = (Resolved syncData, st').

(** The page request of the specification, written out: a GET of
    [tasks/completed] that presents the token as a bearer token and asks
    for at most 200 records, from the start when there is no cursor and
    else from the cursor [c] the page before returned. *)
Inductive page_request (token cursor : value) : request -> Prop :=
  | first_request t :
      to_string token = Ok t ->
      truthy cursor = false ->
      page_request token cursor
        (Get "tasks/completed" ("Bearer " ++ t) [("limit", "200")])
  | next_request t c :
      to_string token = Ok t ->
      truthy cursor = true ->
      to_string cursor = Ok c ->
      page_request token cursor
        (Get "tasks/completed" ("Bearer " ++ t)
             [("limit", "200"); ("cursor", c)]).

(** The page request for [token] and [cursor] gets the reply [r]. *)
Definition page_answer (token cursor : value) (st : St) (r : reply)
  (st' : St) : Prop :=
  exists asked, page_request token cursor asked /\ axios st asked = (r, st').

(** One page of the completed-task source: its records and its cursor. *)
Definition page_of (page : value) (results : list value) (next : value)
  : Prop :=
  get_field "results" page = Ok (VArr results) /\
  get_field "next_cursor" page = Ok next.

(** From the state [st] and the cursor [cursor], the source serves the
    pages [pages] one after the other: every page but the last returns a
    cursor, which leads to the next. *)
Inductive serves_pages (token : value)
  : St -> value -> list (list value) -> St -> Prop :=
  | serves_last st cursor page results next st' :
      page_answer token cursor st (Resolved page) st' ->
      page_of page results next ->
      truthy next = false ->
      serves_pages token st cursor [results] st'
  | serves_next st cursor page results next st1 pages st' :
      page_answer token cursor st (Resolved page) st1 ->
      page_of page results next ->
      truthy next = true ->
      serves_pages token st1 next pages st' ->
      serves_pages token st cursor (results :: pages) st'.

(** The source serves the pages [pages], each with a cursor, and fails on
    the request after them with an error object. *)
Inductive fails_after_pages (token : value)
  : St -> value -> list (list value) -> St -> Prop :=
  | fails_now st cursor error st' :
      page_answer token cursor st (Failed error) st' ->
      nullish error = false ->
      fails_after_pages token st cursor [] st'
  | fails_later st cursor page results next st1 pages st' :
      page_answer token cursor st (Resolved page) st1 ->
      page_of page results next ->
      truthy next = true ->
      fails_after_pages token st1 next pages st' ->
      fails_after_pages token st cursor (results :: pages) st'.

End Orchestrator.

(** ** Vocabulary of the specification *)

(** *** Sanitizer *)



Definition content_converts (item : value) : Prop :=
  exists text, escaped_content item = Ok text.

Definition labels_convert (item : value) : Prop :=
  exists labels, escaped_labels item = Ok labels.

(** The Item's labels are the list of label strings [labels]. *)
Definition label_strings (item : value) (labels : list string) : Prop :=
  get_field "labels" item = Ok (VArr (map VStr labels)).

(** The Item's label list is absent or empty. *)
Definition without_labels (item : value) : Prop :=
  get_field "labels" item = Ok VUndef \/
  get_field "labels" item = Ok VNull \/
  get_field "labels" item = Ok (VArr []).

(** *** Denormalizer *)

(** Two Items with the same fields carrying the same values, whatever the
    order the fields are listed in. *)
Definition same_fields (a b : value) : Prop :=
  exists o1 o2, a = VObj o1 /\ b = VObj o2 /\
                forall k, obj_get k o1 = obj_get k o2.


Definition reference_names : list string :=
  ["project_id"; "assigned_by_uid"; "added_by_uid"; "user_id"].

Definition user_roles : list string :=
  ["assigned_by_uid"; "added_by_uid"; "user_id"].


Definition field_satisfies (P : value -> bool) (k : string) (v : value) : bool :=
  match get_field k v with
  | Ok x => P x
  | _ => false
  end.

(** A scalar: a number (a safe integer), a string, a boolean, [null] or
    [undefined]. *)
Definition is_scalar (v : value) : bool :=
  match v with
  | VArr _ | VObj _ => false
  | VNum n => safe_integer n
  | _ => true
  end.

(** A reference an Item may hold: a number (a safe integer), a string other
    than the name of an inherited member, a boolean, [null], or nothing. *)
Definition is_reference (v : value) : bool :=
  match v with
  | VArr _ | VObj _ => false
  | VNum n => safe_integer n
  | VStr s => negb (inherited s)
  | _ => true
  end.

(** A Project or Collaborator record: its [id] is a scalar. *)
Definition is_entity (v : value) : bool := field_satisfies is_scalar "id" v.

(** An Item record: its four references are references. *)
Definition is_item (v : value) : bool :=
  forallb (fun k => field_satisfies is_reference k v) reference_names.

Definition array_of (P : value -> bool) (v : outcome value) : bool :=
  match v with
  | Ok (VArr l) => forallb P l
  | _ => false
  end.

(** A Snapshot with its three collections of records. *)
Definition is_snapshot (syncData : value) : bool :=
  array_of is_entity (get_field "projects" syncData) &&
  array_of is_entity (get_field "collaborators" syncData) &&
  array_of is_item (get_field "items" syncData).

(** The property key of the entity's [id] is [k]. *)
Definition has_key (k : string) (entity : value) : bool :=
  match (id <- get_field "id" entity ;; to_string id) with
  | Ok k' => String.eqb k' k
  | _ => false
  end.

(** No entity of the collection [field] of the Snapshot has the id [n]. *)
Definition dangling (n : Z) (field : string) (syncData : value) : bool :=
  array_of (fun e => negb (has_key (decimal n) e))
           (get_field field syncData).

(** The two orders of the transforms on one Item. *)
Definition project_then_users (m u : gmap string value) (item : value)
  : outcome value :=
  x <- resolve_project m item ;; resolve_users u x.


(** The shape the reducers of both transforms share. *)
Definition add_entity (field : string) (acc : gmap string value) (entity : value)
  : outcome (gmap string value) :=
  id <- get_field "id" entity ;;
  key <- to_string id ;;
  name <- get_field field entity ;;
  Ok (<[key := name]> acc).

(** The first characters of a decimal numeral. *)
Definition numeral_initial (c : ascii) : bool :=
  existsb (Ascii.eqb c) (list_ascii_of_string "-0123456789").

Definition starts_like_name (k : string) : bool :=
  match k with
  | EmptyString => true
  | String c _ => negb (numeral_initial c)
  end.

(** *** Sample data *)

Definition sample_task : value :=
  VObj [("id", VNum 10); ("project_id", VNum 1); ("content", VStr "buy milk");
        ("labels", VArr [VStr "urgent"; VStr "home"])].

Definition bare_task : value :=
  VObj [("id", VNum 11); ("project_id", VNum 7); ("user_id", VNum 3);
        ("content", VNum 42); ("labels", VArr [])].

Definition task_without_content : value :=
  VObj [("id", VNum 12); ("content", VNull)].

Definition sample_snapshot : value :=
  VObj [("projects", VArr [VObj [("id", VNum 1); ("name", VStr "Work")]]);
        ("collaborators",
         VArr [VObj [("id", VNum 2); ("full_name", VStr "Ada")]]);
        ("user", VObj [("is_premium", VBool true)]);
        ("items", VArr [sample_task; bare_task])].


(** A remote API that answers the requests with a prepared list of replies,
    one per request, and with a network error once the list is used up. *)
Definition scripted (st : list reply) (r : request) : reply * list reply :=
  match st with
  | [] => (Failed (VObj [("message", VStr "Network Error")]), [])
  | answer :: rest => (answer, rest)
  end.

Definition fresh_response : response :=
  {| status := VNum 200; attachment := None; body := None |}.

Definition start (replies : list reply) : world :=
  {| upstream := replies; events := []; res := fresh_response |}.

Definition page_value (results : list value) (next : value) : value :=
  VObj [("results", VArr results); ("next_cursor", next)].

Definition account (premium : bool) (items : list value) : value :=
  VObj [("user", VObj [("is_premium", VBool premium)]);
        ("projects", VArr []);
        ("collaborators", VArr []);
        ("items", VArr items)].

Definition no_csv (rows : value) : conversion := CalledBack VNull (VStr "").

(** A remote API that looks at what it is asked.  It serves the account of
    the token [tok]: the sync request gets [sync], and a page request gets
    the reply that the history holds for exactly its query, so that the
    second page is only reached with the cursor of the first.  Any other
    request is rejected.  The state counts the requests received. *)
Fixpoint query_eqb (q1 q2 : list (string * string)) : bool :=
  match q1, q2 with
  | [], [] => true
  | (k1, v1) :: t1, (k2, v2) :: t2 =>
      String.eqb k1 k2 && String.eqb v1 v2 && query_eqb t1 t2
  | _, _ => false
  end.

Definition rejection (code : Z) : reply :=
  Failed (VObj [("response", VObj [("status", VNum code)])]).

Fixpoint page_for (query : list (string * string))
  (history : list (list (string * string) * reply)) : reply :=
  match history with
  | [] => rejection 404
  | (q, answer) :: rest =>
      if query_eqb q query then answer else page_for query rest
  end.

Definition todoist (sync : reply)
  (history : list (list (string * string) * reply))
  (st : nat) (r : request) : reply * nat :=
  (match r with
   | Post api authorization _ =>
       if negb (String.eqb authorization "Bearer tok") then rejection 401
       else if String.eqb api "sync" then sync
       else rejection 404
   | Get path authorization query =>
       if negb (String.eqb authorization "Bearer tok") then rejection 401
       else if String.eqb path "tasks/completed" then page_for query history
       else rejection 404
   end, S st).

(** The world before the first request to such an API. *)
Definition untouched : world :=
  {| upstream := 0; events := []; res := fresh_response |}.

(** A history of three pages, chained by the cursors [c1] and [c2]. *)
Definition three_pages : list (list (string * string) * reply) :=
  [([("limit", "200")],
    Resolved (page_value [VNum 1; VNum 2] (VStr "c1")));
   ([("limit", "200"); ("cursor", "c1")],
    Resolved (page_value [VNum 3] (VStr "c2")));
   ([("limit", "200"); ("cursor", "c2")],
    Resolved (page_value [VNum 4; VNum 5] VNull))].

(** A history of two pages. *)
Definition two_pages : list (list (string * string) * reply) :=
  [([("limit", "200")],
    Resolved (page_value [VNum 1; VNum 2] (VStr "c1")));
   ([("limit", "200"); ("cursor", "c1")],
    Resolved (page_value [VNum 3] VNull))].

(** A history whose second page cannot be fetched. *)
Definition broken_history : list (list (string * string) * reply) :=
  [([("limit", "200")],
    Resolved (page_value [VNum 1; VNum 2] (VStr "c1")));
   ([("limit", "200"); ("cursor", "c1")], rejection 503)].

(** ** The routes and the request log *)

Definition subdirectory : string := "/todoist-export".



(** [v += s] with a string [s]. *)
Definition append_string (v : value) (s : string) : outcome value :=
  t <- to_string v ;; Ok (VStr (t ++ s)).

(** The [state] the [/auth] route hands to [authorizeURL], from [req.body]. *)
Definition auth_state (body : value) : outcome value :=
  chosen <- get_field "format" body ;;
  let format := js_or chosen (VStr "json") in
  archived <- get_field "archived" body ;;
  if truthy archived
  then append_string format FORMAT_SUFFIX_INCLUDE_ARCHIVED
  else Ok format.

(** How a route ends: with a redirect, or with the response written. *)
Inductive handled : Type :=
  | Redirected (location : string)
  | Replied.

Section Routes.

Context {St : Type}.
Variable axios : St -> request -> reply * St.
Variable json2csv : value -> conversion.
Variable IS_PRODUCTION : bool.
(** [oauth2.authorizationCode]: the URL builder and the token exchange. *)
Variable authorizeURL : value -> string.
Variable getToken : St -> value -> reply * St.

Notation "x <~ m ;; k" := (pbind m (fun x => k))
  (at level 100, m at next level, right associativity).

(** [app.post("/todoist-export/auth")] *)
Definition auth_route (body : value) : @prog St handled :=
  state <~ lift (auth_state body) ;;
  ret (Redirected (authorizeURL (VObj [("scope", VStr "data:read");
                                       ("state", state)]))).

(** [await oauth2.authorizationCode.getToken({ code })] *)
Definition exchange (code : value) : @prog St value :=
  fun w =>
    let '(answer, st) := getToken (upstream w) (VObj [("code", code)]) in
    let w' := {| upstream := st; events := events w; res := res w |} in
    match answer with
    | Resolved data => (Ok data, w')
    | Failed error => (Throw (Rejected error), w')
    end.

(** [app.get("/todoist-export/export")], from [req.query].  The [catch]
    block is given the reason of a rejection; an error object the engine
    itself created is outside the values embedded here. *)
Definition export_route (query : value) : @prog St handled :=
  code <~ lift (get_field "code" query) ;;
  if negb (truthy code) then
    _ <~ renderErrorPage IS_PRODUCTION (VStr "Parameter missing: code")
           (VObj [("status", VNum 400)]) ;;
    ret Replied
  else
    try_catch
      (authResponse <~ exchange code ;;
       token <~ lift (get_field "access_token" authResponse) ;;
       chosen <~ lift (get_field "format" query) ;;
       let format := js_or chosen (VStr "json") in
       t <~ lift (to_string token) ;;
       f <~ lift (to_string format) ;;
       ret (Redirected (subdirectory ++ "?token=" ++ t ++ "&format=" ++ f)))
      (fun error =>
         match error with
         | Rejected reason =>
             _ <~ renderErrorPage IS_PRODUCTION reason VUndef ;;
             ret Replied
         | TypeError => lift Beyond
         end).

(** [app.get("/todoist-export/download")], from [req.query]. *)
Definition download_route (fuel : nat) (query : value) : @prog St unit :=
  try_catch
    (token <~ lift (get_field "token" query) ;;
     format <~ lift (get_field "format" query) ;;
     exportData axios json2csv IS_PRODUCTION fuel token format)
    (fun error =>
       match error with
       | Rejected reason =>
           message <~ lift (get_field "message" reason) ;;
           renderErrorPage IS_PRODUCTION
             (js_or message (VStr "Unexpected error.")) reason
       | TypeError => lift Beyond
       end).

(** *** Runs of the completed-task source, page by page *)

(** The records a page contributes: [page.results || []]. *)
Definition page_records (page : value) : list value :=
  match get_field "results" page with
  | Ok (VArr l) => l
  | _ => []
  end.

(** A page as the paginator expects it: [results] is an array or missing. *)
Definition plain_page (page : value) : Prop :=
  exists results,
    get_field "results" page = Ok results /\
    ((exists l, results = VArr l) \/ truthy results = false).

(** From [st] and [cursor], the source answers with the pages [pages] one
    after the other, each but the last with a cursor. *)
Inductive answers_pages (token : value)
  : St -> value -> list value -> St -> Prop :=
  | answers_last st cursor page next st' :
      page_answer axios token cursor st (Resolved page) st' ->
      get_field "next_cursor" page = Ok next ->
      truthy next = false ->
      answers_pages token st cursor [page] st'
  | answers_next st cursor page next st1 pages st' :
      page_answer axios token cursor st (Resolved page) st1 ->
      get_field "next_cursor" page = Ok next ->
      truthy next = true ->
      answers_pages token st1 next pages st' ->
      answers_pages token st cursor (page :: pages) st'.

(** The source serves the pages [pages], each with a cursor, and then
    answers with a body that is [null] or [undefined]. *)
Inductive breaks_after_pages (token : value)
  : St -> value -> list (list value) -> St -> Prop :=
  | breaks_now st cursor page st' :
      page_answer axios token cursor st (Resolved page) st' ->
      nullish page = true ->
      breaks_after_pages token st cursor [] st'
  | breaks_later st cursor page results next st1 pages st' :
      page_answer axios token cursor st (Resolved page) st1 ->
      page_of page results next ->
      truthy next = true ->
      breaks_after_pages token st1 next pages st' ->
      breaks_after_pages token st cursor (results :: pages) st'.

End Routes.

(** A page request: a GET of [tasks/completed] whose first parameter is
    the page size 200. *)
Definition is_page_request (e : event) : Prop :=
  exists authorization rest,
    e = Requested (Get "tasks/completed" authorization
                     (("limit", "200") :: rest)).

(** The three passes of the CSV branch of [exportData] on one Item. *)
Definition csv_row (m u : gmap string value) (item : value) : outcome value :=
  resolved <- project_then_users m u item ;; escape_item resolved.

(** The rows the CSV branch of [exportData] hands to the encoder. *)
Definition csv_rows (syncData : value) : outcome value :=
  s1 <- reassign_items convertProjectNames syncData ;;
  s2 <- reassign_items convertUserNames s1 ;;
  s3 <- reassign_items escapeCommas s2 ;;
  get_field "items" s3.

(** A log entry, as opposed to a request. *)
Definition is_log_entry (e : event) : Prop :=
  (exists v, e = Logged v) \/ (exists t, e = LoggedThrown t).

(** A Snapshot with a Collaborator whose name is empty. *)
Definition team_snapshot : value :=
  VObj [("projects", VArr []);
        ("collaborators",
         VArr [VObj [("id", VNum 2); ("full_name", VStr "Ada")];
               VObj [("id", VNum 3); ("full_name", VStr "")]]);
        ("items", VArr [bare_task])].

(** A token exchange that answers with a prepared list of replies. *)
Definition scripted_token (st : list reply) (params : value)
  : reply * list reply :=
  match st with
  | [] => (Failed (VObj [("message", VStr "Network Error")]), [])
  | answer :: rest => (answer, rest)
  end.

Definition sample_authorizeURL (options : value) : string :=
  "https://app.todoist.com/oauth/authorize".

(** * Properties *)

(** ** Auxiliary facts *)
Lemma bind_Ok {A B : Type} (m : outcome A) (f : A -> outcome B) (b : B) :
  bind m f = Ok b <-> exists a, m = Ok a /\ f a = Ok b.
Proof.
  split.
  - destruct m as [a| |]; simpl; intros H; try discriminate. eauto.
  - intros (a & -> & H). exact H.
Qed.

Lemma obj_get_set_eq k v o : obj_get k (obj_set k v o) = Some v.
Proof.
  induction o as [|[k' v'] o IH]; simpl.
  - by rewrite String.eqb_refl.
  - destruct (String.eqb k' k) eqn:E; simpl; rewrite E; [done | exact IH].
Qed.

Lemma obj_get_set_ne k k' v o :
  k <> k' -> obj_get k' (obj_set k v o) = obj_get k' o.
Proof.
  intros Hne. induction o as [|[k0 v0] o IH]; simpl.
  - destruct (String.eqb_spec k k'); [contradiction | done].
  - destruct (String.eqb_spec k0 k) as [->|Hk]; simpl.
    + destruct (String.eqb_spec k k'); [contradiction | done].
    + by rewrite IH.
Qed.

Lemma mapM_strings (labels : list string) :
  mapM element_string (map VStr labels) = Ok labels.
Proof. induction labels as [|s l IH]; simpl; [done | by rewrite IH]. Qed.

Lemma escaped_labels_strings item s labels :
  label_strings item (s :: labels) ->
  escaped_labels item = Ok (VStr (quoted (String.concat "," (s :: labels)))).
Proof.
  unfold label_strings, escaped_labels. intros ->.
  cbn [bind nullish map get_field String.eqb Ascii.eqb Bool.eqb length gt_zero].
  replace (0 <? Z.of_nat (S (length (map VStr labels))))%Z with true
    by (symmetry; apply Z.ltb_lt; lia).
  cbn [call_join]. unfold array_join.
  change (VStr s :: map VStr labels) with (map VStr (s :: labels)).
  by rewrite mapM_strings.
Qed.

Lemma escaped_labels_none item :
  without_labels item -> escaped_labels item = Ok VNull.
Proof. unfold escaped_labels. by intros [-> | [-> | ->]]. Qed.


Lemma mapM_Forall2 {A B : Type} (f : A -> outcome B) (R : A -> B -> Prop)
  (l : list A) :
  Forall (fun a => exists b, f a = Ok b /\ R a b) l ->
  exists out, mapM f l = Ok out /\ Forall2 R l out.
Proof.
  induction 1 as [|a l (b & Hb & HR) _ (out & Hout & HF)]; simpl.
  - eexists; split; [done | constructor].
  - rewrite Hb, Hout. simpl. eexists; split; [done | by constructor].
Qed.

Lemma mapM_app_fail {A B : Type} (f : A -> outcome B) (l1 l2 : list A) a :
  (forall b, f a <> Ok b) -> forall out, mapM f (l1 ++ a :: l2) <> Ok out.
Proof.
  intros Ha. induction l1 as [|x l1 IH]; simpl; intros out H.
  - apply bind_Ok in H as (b & Hb & _). by apply (Ha b).
  - apply bind_Ok in H as (b & _ & H). apply bind_Ok in H as (r & Hr & _).
    by apply (IH r).
Qed.

Lemma mapM_app_throw {A B : Type} (f : A -> outcome B) (l1 l2 : list A) a e out1 :
  mapM f l1 = Ok out1 -> f a = Throw e -> mapM f (l1 ++ a :: l2) = Throw e.
Proof.
  revert out1. induction l1 as [|x l1 IH]; simpl; intros out1 H1 Ha.
  - by rewrite Ha.
  - apply bind_Ok in H1 as (b & Hb & H1). apply bind_Ok in H1 as (r & Hr & _).
    rewrite Hb. simpl. by rewrite (IH r Hr Ha).
Qed.

Lemma numeral_head n :
  exists c r, decimal n = String c r /\ numeral_initial c = true.
Proof.
  unfold decimal.
  destruct (Z.to_int n) as [d|d]; simpl.
  - destruct d; simpl; eauto.
  - eauto.
Qed.

Lemma numeral_not_name n k :
  starts_like_name k = true -> String.eqb (decimal n) k = false.
Proof.
  intros Hk. destruct (numeral_head n) as (c & r & -> & Hc).
  destruct k as [|c' k']; simpl; [done|].
  simpl in Hk. destruct (Ascii.eqb_spec c c') as [->|]; [|done].
  by rewrite Hc in Hk.
Qed.

Lemma numeral_not_inherited n : inherited (decimal n) = false.
Proof.
  unfold inherited, inherited_names. simpl.
  rewrite !numeral_not_name by reflexivity. reflexivity.
Qed.

Lemma obj_get_numerals {A : Type} (f : A -> value) (g : nat -> Z) (l : list A) k :
  starts_like_name k = true ->
  obj_get k (imap (fun i a => (decimal (g i), f a)) l) = None.
Proof.
  intros Hk. revert g. induction l as [|a l IH]; intros g; simpl; [done|].
  rewrite numeral_not_name by done. apply (IH (g ∘ S)).
Qed.

Lemma get_field_spread k item :
  k ∈ "content" :: reference_names -> nullish item = false ->
  get_field k (VObj (spread item)) = get_field k item.
Proof.
  intros Hk Hn.
  assert (starts_like_name k = true /\ inherited k = false /\
          String.eqb k "length" = false /\
          existsb (String.eqb k) field_names = true) as (H1 & H2 & H3 & H4).
  { unfold reference_names in Hk.
    repeat (apply elem_of_cons in Hk as [-> | Hk]; [by vm_compute|]).
    by apply elem_of_nil in Hk. }
  destruct item; try done; unfold get_field, spread, read_member;
    rewrite ?H3, ?H4; cbn [orb obj_get].
  - by rewrite H2.
  - by rewrite H2.
  - by rewrite (obj_get_numerals (fun c => VStr (String c "")) Z.of_nat), H2.
  - by rewrite (obj_get_numerals (fun e => e) Z.of_nat), H2.
Qed.

(** ** The sanitizer *)

Lemma mapM_Ok_Forall2 {A B : Type} (f : A -> outcome B) (R : A -> B -> Prop) :
  (forall a b, f a = Ok b -> R a b) ->
  forall l out, mapM f l = Ok out -> Forall2 R l out.
Proof.
  intros Hf. induction l as [|a l IH]; intros out H.
  - injection H as <-. constructor.
  - simpl in H. apply bind_Ok in H as (b & Hb & H).
    apply bind_Ok in H as (bs & Hbs & H). injection H as <-.
    constructor; eauto.
Qed.


(** The numeral is the one that reads back as the number. *)
Lemma decimal_reads_back (n : Z) :
  option_map Z.of_int (NilZero.int_of_string (decimal n)) = Some n.
Proof.
  unfold decimal. rewrite NilZero.isi.
  - simpl. by rewrite DecimalZ.of_to.
  - destruct n as [|p|p]; try discriminate.
    simpl. intros [= H]. by apply (DecimalPos.Unsigned.to_uint_nonnil p).
  - destruct n as [|p|p]; try discriminate.
    simpl. intros [= H]. by apply (DecimalPos.Unsigned.to_uint_nonnil p).
Qed.








Lemma escape_item_missing_content (item : value) :
  get_field "content" item = Ok VNull \/ get_field "content" item = Ok VUndef ->
  (forall out, escape_item item <> Ok out) /\
  (labels_convert item -> escape_item item = Throw TypeError).
Proof.
  intros Hc. split.
  - intros out H. unfold escape_item in H.
    apply bind_Ok in H as (l & _ & H). apply bind_Ok in H as (c & H & _).
    unfold escaped_content in H. by destruct Hc as [Hc | Hc]; rewrite Hc in H.
  - intros [l Hl]. unfold escape_item, escaped_content. rewrite Hl.
    by destruct Hc as [-> | ->].
Qed.

Lemma escapeCommas_no_result
  (syncData : value) (before after : list value) (item : value) :
  get_field "items" syncData = Ok (VArr (before ++ item :: after)) ->
  get_field "content" item = Ok VNull \/ get_field "content" item = Ok VUndef ->
  forall out, escapeCommas syncData <> Ok out.
Proof.
  intros Hitems Hc.
  destruct (escape_item_missing_content item Hc) as [Hnone _].
  unfold escapeCommas. rewrite Hitems. simpl. by apply mapM_app_fail.
Qed.

(** ** The denormalizer *)

Lemma obj_get_set k k' v o :
  obj_get k' (obj_set k v o) = if String.eqb k k' then Some v else obj_get k' o.
Proof.
  destruct (String.eqb_spec k k') as [->|Hne].
  - apply obj_get_set_eq.
  - by apply obj_get_set_ne.
Qed.



Lemma mapM_cons_Ok {A B : Type} (f : A -> outcome B) a l r :
  mapM f (a :: l) = Ok r <->
  exists b bs, f a = Ok b /\ mapM f l = Ok bs /\ r = b :: bs.
Proof.
  simpl. split.
  - intros H. apply bind_Ok in H as (b & Hb & H).
    apply bind_Ok in H as (bs & Hbs & H). injection H as <-. eauto.
  - intros (b & bs & -> & -> & ->). done.
Qed.

Lemma mapM_compose {A B C : Type} (f : A -> outcome B) (g : B -> outcome C)
  (l : list A) (r : list C) :
  (mid <- mapM f l ;; mapM g mid) = Ok r <->
  mapM (fun a => b <- f a ;; g b) l = Ok r.
Proof.
  revert r. induction l as [|a l IH]; intros r; [done|].
  rewrite bind_Ok, mapM_cons_Ok. split.
  - intros (mid & Hmid & Hr). apply mapM_cons_Ok in Hmid as (b & bs & Hb & Hbs & ->).
    apply mapM_cons_Ok in Hr as (c & cs & Hc & Hcs & ->).
    exists c, cs. rewrite Hb. split; [done|]. split; [|done].
    apply IH. by rewrite Hbs.
  - intros (c & cs & Hc & Hcs & ->). apply bind_Ok in Hc as (b & Hb & Hc).
    apply IH in Hcs. apply bind_Ok in Hcs as (bs & Hbs & Hcs).
    exists (b :: bs). split.
    + apply mapM_cons_Ok. eauto.
    + apply mapM_cons_Ok. eauto.
Qed.




Lemma user_name_copy names role item o :
  role ∈ user_roles ->
  nullish item = false ->
  (obj_get role o = obj_get role (spread item)) ->
  user_name names role (VObj o) = user_name names role item.
Proof.
  intros Hr Hn Ho. unfold user_name.
  rewrite <- (get_field_spread role item).
  - simpl. by rewrite Ho.
  - revert Hr. unfold user_roles, reference_names.
    rewrite !elem_of_cons. tauto.
  - done.
Qed.

Lemma get_field_Ok_nullish k item v :
  get_field k item = Ok v -> nullish item = false.
Proof. by destruct item. Qed.

Lemma project_then_users_Ok m u item r :
  project_then_users m u item = Ok r <->
  exists name a b c,
    project_name m item = Ok name /\
    user_name u "assigned_by_uid" item = Ok a /\
    user_name u "added_by_uid" item = Ok b /\
    user_name u "user_id" item = Ok c /\
    r = VObj (obj_set "user_id" c
               (obj_set "added_by_uid" b
                 (obj_set "assigned_by_uid" a
                   (obj_set "project_id" name (spread item))))).
Proof.
  unfold project_then_users, resolve_project.
  destruct (project_name m item) as [name| |] eqn:Hp; simpl;
    [|split; [discriminate | by intros (?&?&?&?&?&_)]..].
  assert (nullish item = false) as Hn.
  { unfold project_name in Hp. apply bind_Ok in Hp as (v & Hv & _).
    by eapply get_field_Ok_nullish. }
  unfold resolve_users. cbn [spread].
  rewrite !(user_name_copy u _ item) by
    (done || (unfold user_roles; set_solver) || by rewrite obj_get_set_ne).
  split.
  - intros H. apply bind_Ok in H as (a & Ha & H).
    apply bind_Ok in H as (b & Hb & H). apply bind_Ok in H as (c & Hc & H).
    injection H as <-. by exists name, a, b, c.
  - intros (name' & a & b & c & Hname & -> & -> & -> & ->).
    by injection Hname as ->.
Qed.


Lemma same_fields_sym a b : same_fields a b -> same_fields b a.
Proof. intros (o1 & o2 & -> & -> & H). exists o2, o1. by split_and!. Qed.



Lemma array_field_of_object k syncData l :
  get_field k syncData = Ok (VArr l) ->
  exists o, syncData = VObj o /\ obj_get k o = Some (VArr l).
Proof.
  destruct syncData as [| | | | |?|o]; simpl; try discriminate.
  - repeat case_match; discriminate.
  - repeat case_match; discriminate.
  - repeat case_match; discriminate.
  - repeat case_match; discriminate.
  - intros H. exists o. split; [done|]. unfold read_member in H.
    destruct (obj_get k o); [by injection H as -> | by destruct (inherited k)].
Qed.

Lemma convertProjectNames_Ok syncData r :
  convertProjectNames syncData = Ok r <->
  exists m l, project_table syncData = Ok m /\
              get_field "items" syncData = Ok (VArr l) /\
              mapM (resolve_project m) l = Ok r.
Proof.
  unfold convertProjectNames. split.
  - intros H. apply bind_Ok in H as (m & Hm & H).
    apply bind_Ok in H as (items & Hi & H). apply bind_Ok in H as (l & Hl & H).
    destruct items; try discriminate. injection Hl as ->. eauto.
  - intros (m & l & -> & -> & H). done.
Qed.

Lemma convertUserNames_Ok syncData r :
  convertUserNames syncData = Ok r <->
  exists u l, user_table syncData = Ok u /\
              get_field "items" syncData = Ok (VArr l) /\
              mapM (resolve_users u) l = Ok r.
Proof.
  unfold convertUserNames. split.
  - intros H. apply bind_Ok in H as (m & Hm & H).
    apply bind_Ok in H as (items & Hi & H). apply bind_Ok in H as (l & Hl & H).
    destruct items; try discriminate. injection Hl as ->. eauto.
  - intros (m & l & -> & -> & H). done.
Qed.

Lemma tables_after_items o x :
  project_table (VObj (obj_set "items" x o)) = project_table (VObj o) /\
  user_table (VObj (obj_set "items" x o)) = user_table (VObj o) /\
  get_field "items" (VObj (obj_set "items" x o)) = Ok x.
Proof.
  unfold project_table, user_table. simpl.
  rewrite !obj_get_set_ne by done. by rewrite obj_get_set_eq.
Qed.



Lemma scalar_to_string v :
  is_scalar v = true -> exists k, to_string v = Ok k.
Proof.
  destruct v; simpl; try discriminate; eauto.
  intros Hn. unfold number_to_string. rewrite Hn. eauto.
Qed.

Lemma reference_key v :
  is_reference v = true -> exists k, to_string v = Ok k /\ inherited k = false.
Proof.
  destruct v as [| |[]| |s| |]; simpl; try discriminate; eauto.
  - intros Hn. unfold number_to_string. rewrite Hn.
    eexists. split; [done | apply numeral_not_inherited].
  - intros H. exists s. split; [done | by destruct (inherited s)].
Qed.

Lemma safe_key n k : to_string (VNum n) = Ok k -> k = decimal n.
Proof.
  cbn [to_string]. unfold number_to_string.
  destruct (safe_integer n); [|discriminate]. by intros [= <-].
Qed.

Lemma names_lookup_Ok (names : gmap string value) k :
  inherited k = false ->
  names_lookup names k = Ok (default VUndef (names !! k)).
Proof.
  intros Hk. unfold names_lookup, read_member.
  destruct (names !! k); [done | by rewrite Hk].
Qed.

Lemma get_field_total k v :
  nullish v = false -> inherited k = false ->
  existsb (String.eqb k) field_names = true ->
  exists x, get_field k v = Ok x.
Proof.
  intros Hn Hi Hf.
  destruct v; try done; unfold get_field, read_member;
    rewrite ?Hf, ?orb_true_r; repeat case_match; eauto.
  discriminate.
Qed.

Lemma add_project_name_entity : add_project_name = add_entity "name".
Proof. reflexivity. Qed.

Lemma add_user_name_entity : add_user_name = add_entity "full_name".
Proof. reflexivity. Qed.

Lemma fold_entities_Ok field (l : list value) :
  inherited field = false ->
  existsb (String.eqb field) field_names = true ->
  forallb is_entity l = true ->
  forall m0, exists m, foldM (add_entity field) m0 l = Ok m.
Proof.
  intros Hi Hf. induction l as [|e l IH]; simpl; intros Hl m0; [eauto|].
  apply andb_true_iff in Hl as [He Hl].
  unfold is_entity, field_satisfies in He.
  destruct (get_field "id" e) as [id| |] eqn:Hid; try discriminate.
  destruct (scalar_to_string id He) as [k Hk].
  destruct (get_field_total field e) as [name Hname]; try done.
  { by eapply get_field_Ok_nullish. }
  unfold add_entity at 1. rewrite Hid. simpl. rewrite Hk. simpl.
  rewrite Hname. simpl. apply IH, Hl.
Qed.

Lemma fold_entities_lookup field (l : list value) k :
  forallb (fun e => negb (has_key k e)) l = true ->
  forall m0 m, foldM (add_entity field) m0 l = Ok m ->
               m0 !! k = None -> m !! k = None.
Proof.
  induction l as [|e l IH]; simpl; intros Hl m0 m H H0.
  - by injection H as <-.
  - apply andb_true_iff in Hl as [He Hl].
    apply bind_Ok in H as (m1 & H1 & H).
    apply (IH Hl m1 m H).
    unfold add_entity in H1.
    apply bind_Ok in H1 as (id & Hid & H1).
    apply bind_Ok in H1 as (key & Hkey & H1).
    apply bind_Ok in H1 as (name & _ & H1). injection H1 as <-.
    rewrite lookup_insert_ne; [done|].
    intros ->. unfold has_key in He. rewrite Hid in He. simpl in He.
    rewrite Hkey in He. by rewrite String.eqb_refl in He.
Qed.

Lemma table_of_entities field table (collection : string) syncData :
  (forall s, table s = (c <- get_field collection s ;;
                        l <- array_receiver c ;;
                        foldM (add_entity field) ∅ l)) ->
  inherited field = false ->
  existsb (String.eqb field) field_names = true ->
  array_of is_entity (get_field collection syncData) = true ->
  exists m : gmap string value,
    table syncData = Ok m /\
    forall n, dangling n collection syncData = true ->
              m !! decimal n = None.
Proof.
  intros Htable Hi Hf Ha. rewrite Htable. unfold dangling.
  destruct (get_field collection syncData) as [[]| |]; try discriminate.
  simpl in *. destruct (fold_entities_Ok field l Hi Hf Ha ∅) as [m Hm].
  exists m. split; [done|]. intros n Hn.
  by eapply fold_entities_lookup.
Qed.

Lemma project_name_total m item :
  field_satisfies is_reference "project_id" item = true ->
  exists name, project_name m item = Ok name.
Proof.
  unfold field_satisfies, project_name.
  destruct (get_field "project_id" item) as [v| |]; try discriminate.
  intros Hv. destruct (reference_key v Hv) as (k & Hk & Hi).
  simpl. rewrite Hk. simpl. rewrite names_lookup_Ok by done. eauto.
Qed.

Lemma user_name_total u role item :
  field_satisfies is_reference role item = true ->
  exists name, user_name u role item = Ok name.
Proof.
  unfold field_satisfies, user_name.
  destruct (get_field role item) as [v| |]; try discriminate.
  intros Hv. destruct (reference_key v Hv) as (k & Hk & Hi).
  simpl. rewrite Hk. simpl. rewrite names_lookup_Ok by done. simpl. eauto.
Qed.

Lemma project_name_dangling (m : gmap string value) item n name :
  project_name m item = Ok name ->
  get_field "project_id" item = Ok (VNum n) ->
  m !! decimal n = None ->
  name = VUndef.
Proof.
  intros H Hf Hm. unfold project_name in H. rewrite Hf in H.
  apply bind_Ok in H as (id & [= <-] & H).
  apply bind_Ok in H as (k & ->%safe_key & H).
  rewrite names_lookup_Ok in H by apply numeral_not_inherited.
  rewrite Hm in H. by injection H as <-.
Qed.

Lemma user_name_dangling (u : gmap string value) role item n name :
  user_name u role item = Ok name ->
  get_field role item = Ok (VNum n) ->
  u !! decimal n = None ->
  name = VNull.
Proof.
  intros H Hf Hm. unfold user_name in H. rewrite Hf in H.
  apply bind_Ok in H as (id & [= <-] & H).
  apply bind_Ok in H as (k & ->%safe_key & H).
  rewrite names_lookup_Ok in H by apply numeral_not_inherited.
  rewrite Hm in H. by injection H as <-.
Qed.

Lemma is_item_references item :
  is_item item = true ->
  field_satisfies is_reference "project_id" item = true /\
  field_satisfies is_reference "assigned_by_uid" item = true /\
  field_satisfies is_reference "added_by_uid" item = true /\
  field_satisfies is_reference "user_id" item = true.
Proof.
  unfold is_item, reference_names. simpl. rewrite !andb_true_iff. tauto.
Qed.

Lemma is_snapshot_parts syncData :
  is_snapshot syncData = true ->
  exists (m u : gmap string value) items,
    project_table syncData = Ok m /\
    user_table syncData = Ok u /\
    get_field "items" syncData = Ok (VArr items) /\
    forallb is_item items = true /\
    (forall n, dangling n "projects" syncData = true ->
               m !! decimal n = None) /\
    (forall n, dangling n "collaborators" syncData = true ->
               u !! decimal n = None).
Proof.
  unfold is_snapshot. rewrite !andb_true_iff. intros [[Hp Hc] Hi].
  destruct (table_of_entities "name" project_table "projects" syncData)
    as (m & Hm & Hdm); try done.
  destruct (table_of_entities "full_name" user_table "collaborators" syncData)
    as (u & Hu & Hdu); try done.
  destruct (get_field "items" syncData) as [[]| |]; try discriminate.
  exists m, u, l. by split_and!.
Qed.




(** C8, as the code has it: on a Snapshot of records neither resolver
    fails; an Item's numeric [project_id] that no Project has is resolved to
    [undefined], the value a missing field reads as, and a numeric user
    reference that no Collaborator has is resolved to [null]. *)
Theorem dangling_references (syncData : value) (items : list value) :
  is_snapshot syncData = true ->
  get_field "items" syncData = Ok (VArr items) ->
  exists by_project by_user,
    convertProjectNames syncData = Ok by_project /\
    convertUserNames syncData = Ok by_user /\
    Forall2 (fun item resolved =>
      forall n,
        get_field "project_id" item = Ok (VNum n) ->
        dangling n "projects" syncData = true ->
        get_field "project_id" resolved = Ok VUndef)
      items by_project /\
    Forall2 (fun item resolved =>
      forall role n,
        role ∈ user_roles ->
        get_field role item = Ok (VNum n) ->
        dangling n "collaborators" syncData = true ->
        get_field role resolved = Ok VNull)
      items by_user.
Proof.
  intros Hs Hitems.
  destruct (is_snapshot_parts syncData Hs)
    as (m & u & items' & Hm & Hu & Hi & HF & Hdm & Hdu).
  rewrite Hitems in Hi. injection Hi as <-.
  rewrite forallb_forall in HF.
  destruct (mapM_Forall2 (resolve_project m) (fun item resolved =>
      forall n,
        get_field "project_id" item = Ok (VNum n) ->
        dangling n "projects" syncData = true ->
        get_field "project_id" resolved = Ok VUndef) items)
    as (by_project & HP & HRP).
  { apply Forall_forall. intros item Hin. apply list_elem_of_In in Hin.
    destruct (is_item_references item (HF item Hin)) as (Hp & _).
    destruct (project_name_total m item Hp) as [name Hname].
    unfold resolve_project. rewrite Hname. simpl. eexists. split; [done|].
    intros n Hn Hd.
    rewrite (project_name_dangling m item n name Hname Hn (Hdm n Hd)).
    simpl. by rewrite obj_get_set_eq. }
  destruct (mapM_Forall2 (resolve_users u) (fun item resolved =>
      forall role n,
        role ∈ user_roles ->
        get_field role item = Ok (VNum n) ->
        dangling n "collaborators" syncData = true ->
        get_field role resolved = Ok VNull) items)
    as (by_user & HU & HRU).
  { apply Forall_forall. intros item Hin. apply list_elem_of_In in Hin.
    destruct (is_item_references item (HF item Hin)) as (_ & Ha & Hb & Hc).
    destruct (user_name_total u _ item Ha) as [a Ha'].
    destruct (user_name_total u _ item Hb) as [b Hb'].
    destruct (user_name_total u _ item Hc) as [c Hc'].
    unfold resolve_users. rewrite Ha', Hb', Hc'. simpl. eexists. split; [done|].
    intros role n Hrole Hn Hd.
    unfold user_roles in Hrole. rewrite !elem_of_cons, elem_of_nil in Hrole.
    destruct Hrole as [-> | [-> | [-> | []]]]; cbn [get_field];
      rewrite !obj_get_set; simpl.
    - by rewrite (user_name_dangling u _ item n a Ha' Hn (Hdu n Hd)).
    - by rewrite (user_name_dangling u _ item n b Hb' Hn (Hdu n Hd)).
    - by rewrite (user_name_dangling u _ item n c Hc' Hn (Hdu n Hd)). }
  exists by_project, by_user. split_and!; try done.
  - apply convertProjectNames_Ok. by exists m, items.
  - apply convertUserNames_Ok. by exists u, items.
Qed.

Lemma dangling_references_witness :
  exists by_project by_user,
    convertProjectNames sample_snapshot = Ok by_project /\
    convertUserNames sample_snapshot = Ok by_user /\
    Forall2 (fun item resolved =>
      forall n,
        get_field "project_id" item = Ok (VNum n) ->
        dangling n "projects" sample_snapshot = true ->
        get_field "project_id" resolved = Ok VUndef)
      [sample_task; bare_task] by_project /\
    Forall2 (fun item resolved =>
      forall role n,
        role ∈ user_roles ->
        get_field role item = Ok (VNum n) ->
        dangling n "collaborators" sample_snapshot = true ->
        get_field role resolved = Ok VNull)
      [sample_task; bare_task] by_user.
Proof.
  apply (dangling_references sample_snapshot [sample_task; bare_task]);
    reflexivity.
Defined.

(** C8, as stated, fails for the project reference: the Item whose
    [project_id] 7 names no Project gets [undefined], which is not the
    explicit marker [null] and reads exactly as a missing field does. *)
Lemma dangling_project_unmarked :
  ~ exists first resolved,
      convertProjectNames sample_snapshot = Ok [first; resolved] /\
      (get_field "project_id" resolved = Ok VNull \/
       get_field "project_id" resolved <> get_field "project_id" (VObj [])).
Proof.
  intros (first & resolved & H & Hmark). vm_compute in H.
  injection H as <- <-. vm_compute in Hmark.
  destruct Hmark as [Hmark | Hmark]; [discriminate | by apply Hmark].
Qed.

Lemma second_resolution (names : gmap string value) (l once : list value) :
  names !! "undefined" = None ->
  (forall k name, names !! k = Some name ->
     exists k', to_string name = Ok k' /\ names !! k' = None /\
                inherited k' = false) ->
  mapM (resolve_project names) l = Ok once ->
  mapM (resolve_project names) once
  = Ok (map (fun item => VObj (obj_set "project_id" VUndef (spread item))) once).
Proof.
  intros Hundef Hnames. revert once.
  induction l as [|a l IH]; intros once H.
  - by injection H as <-.
  - apply mapM_cons_Ok in H as (b & bs & Hb & Hbs & ->).
    cbn [map]. apply mapM_cons_Ok. do 2 eexists. split_and!; [|by apply IH|done].
    unfold resolve_project in Hb.
    apply bind_Ok in Hb as (name & Hname & Hb). injection Hb as <-.
    unfold resolve_project. cbn [spread].
    assert (project_name names
              (VObj (obj_set "project_id" name (spread a))) = Ok VUndef) as ->;
      [|done].
    unfold project_name at 1. simpl. rewrite obj_get_set_eq. simpl.
    unfold project_name in Hname.
    apply bind_Ok in Hname as (id & _ & Hname).
    apply bind_Ok in Hname as (key & _ & Hname).
    unfold names_lookup, read_member in Hname.
    destruct (names !! key) as [found|] eqn:Hkey.
    + injection Hname as ->.
      destruct (Hnames key name Hkey) as (k' & -> & Hk' & Hi). simpl.
      unfold names_lookup, read_member. by rewrite Hk', Hi.
    + destruct (inherited key); [discriminate|]. injection Hname as <-.
      simpl. unfold names_lookup, read_member. by rewrite Hundef.
Qed.

(** C3, as the code has it: when no Project's name, taken as a property
    key, is the key of a Project id or the name of an inherited member, and
    no Project id has the key [undefined], a second application of
    [convertProjectNames] returns the Items of the first with every
    [project_id] replaced by [undefined], the other fields unchanged. *)
Theorem convertProjectNames_twice
  (syncData : value) (names : gmap string value) (once : list value) :
  project_table syncData = Ok names ->
  convertProjectNames syncData = Ok once ->
  names !! "undefined" = None ->
  (forall k name, names !! k = Some name ->
     exists k', to_string name = Ok k' /\ names !! k' = None /\
                inherited k' = false) ->
  items_after convertProjectNames convertProjectNames syncData
  = Ok (map (fun item => VObj (obj_set "project_id" VUndef (spread item))) once).
Proof.
  intros Htable Honce Hundef Hnames.
  unfold items_after, reassign_items. rewrite Honce.
  apply convertProjectNames_Ok in Honce as (m & l & Hm & Hl & Hmap).
  rewrite Htable in Hm. injection Hm as <-.
  destruct (array_field_of_object _ _ _ Hl) as (o & -> & _).
  cbn [bind set_field]. apply convertProjectNames_Ok.
  destruct (tables_after_items o (VArr once)) as (Em & _ & Ei).
  exists names, once. rewrite Em, Ei. split_and!; try done.
  by eapply second_resolution.
Qed.

Lemma convertProjectNames_twice_witness :
  items_after convertProjectNames convertProjectNames sample_snapshot
  = Ok [VObj [("id", VNum 10); ("project_id", VUndef);
              ("content", VStr "buy milk");
              ("labels", VArr [VStr "urgent"; VStr "home"])];
        VObj [("id", VNum 11); ("project_id", VUndef); ("user_id", VNum 3);
              ("content", VNum 42); ("labels", VArr [])]].
Proof.
  apply (convertProjectNames_twice sample_snapshot {["1" := VStr "Work"]}
           [VObj [("id", VNum 10); ("project_id", VStr "Work");
                  ("content", VStr "buy milk");
                  ("labels", VArr [VStr "urgent"; VStr "home"])];
            VObj [("id", VNum 11); ("project_id", VUndef); ("user_id", VNum 3);
                  ("content", VNum 42); ("labels", VArr [])]]).
  - reflexivity.
  - reflexivity.
  - reflexivity.
  - intros k name H. apply lookup_singleton_Some in H as [<- <-].
    exists "Work". split_and!; reflexivity.
Defined.

(** C3, as stated, fails: on the Snapshot with the Project [Work], the
    second application turns the resolved name into [undefined]. *)
Lemma convertProjectNames_not_idempotent :
  items_after convertProjectNames convertProjectNames sample_snapshot
  <> convertProjectNames sample_snapshot.
Proof. vm_compute. discriminate. Qed.

(** ** The paginator and the orchestrator *)

Section OrchestratorFacts.

Context {St : Type}.
Variable axios : St -> request -> reply * St.
Variable json2csv : value -> conversion.
Variable IS_PRODUCTION : bool.

Lemma world_eta (w : @world St) :
  w = {| upstream := upstream w; events := events w; res := res w |}.
Proof. by destruct w. Qed.

(** The request [fetchCompleted] sends is the page request. *)
Lemma page_request_sent token cursor asked :
  page_request token cursor asked ->
  exists query authorization,
    query_of (completed_params cursor) = Ok query /\
    bearer token = Ok authorization /\
    asked = Get "tasks/completed" authorization query.
Proof.
  unfold completed_params, query_of, bearer.
  intros [t Ht Hc | t c Ht Hc Hs]; rewrite Ht, Hc.
  - by do 2 eexists.
  - assert (nullish cursor = false) as Hn by (by destruct cursor).
    cbn [obj_set String.eqb Ascii.eqb Bool.eqb filter list_filter].
    rewrite !decide_True by done. cbn [mapM bind]. rewrite Hs.
    by do 2 eexists.
Qed.

Lemma page_answer_sent token cursor st r st' :
  page_answer axios token cursor st r st' ->
  exists query authorization,
    query_of (completed_params cursor) = Ok query /\
    bearer token = Ok authorization /\
    axios st (Get "tasks/completed" authorization query) = (r, st').
Proof.
  intros (asked & Hasked & Hax).
  destruct (page_request_sent _ _ _ Hasked) as (query & authorization & ? & ? & ->).
  by exists query, authorization.
Qed.

Lemma fetch_page_resolved token cursor (w : world) page st' :
  page_answer axios token cursor (upstream w) (Resolved page) st' ->
  exists ev, fetch_page axios token cursor w = (Ok (Some page), moved w st' ev).
Proof.
  intros (query & authorization & Hq & Hb & Hax)%page_answer_sent.
  unfold fetch_page, try_catch, callRestApi, pbind, lift, send, ret, moved.
  rewrite Hq, Hb, Hax. eauto.
Qed.

Lemma fetch_page_failed token cursor (w : world) error st' :
  page_answer axios token cursor (upstream w) (Failed error) st' ->
  nullish error = false ->
  exists ev, fetch_page axios token cursor w = (Ok None, moved w st' ev).
Proof.
  intros (query & authorization & Hq & Hb & Hax)%page_answer_sent Hn.
  unfold fetch_page, try_catch, callRestApi, pbind, lift, send, ret, moved.
  rewrite Hq, Hb, Hax. cbn [log_fetch_failure].
  destruct (get_field_total "response" error Hn) as [r Hr]; [done..|].
  unfold pbind, lift, emit. rewrite Hr.
  destruct (truthy r) eqn:Ht.
  - assert (nullish r = false) as Hnr by (by destruct r).
    destruct (get_field_total "status" r Hnr) as [x1 ->]; [done..|].
    destruct (get_field_total "statusText" r Hnr) as [x2 ->]; [done..|].
    destruct (get_field_total "config" r Hnr) as [x3 ->]; [done..|].
    destruct (get_field_total "data" r Hnr) as [x4 ->]; [done..|].
    cbn. rewrite <- app_assoc. eauto.
  - cbn. rewrite <- app_assoc. eauto.
Qed.

Lemma fetchCompleted_pages token pages :
  forall st cursor st',
    serves_pages axios token st cursor pages st' ->
    forall fuel (w : world),
      upstream w = st -> length pages <= fuel ->
      exists ev,
        fetchCompleted axios fuel token cursor w
        = (Ok (VObj [("results", VArr (concat pages))]), moved w st' ev).
Proof.
  induction 1 as [st cursor page results next st' Hans [Hres Hnext] Hlast
                 |st cursor page results next st1 pages st' Hans [Hres Hnext]
                    Hmore Hrest IH];
    intros fuel w Hw Hfuel; subst st.
  - destruct fuel as [|fuel]; [simpl in Hfuel; lia|].
    destruct (fetch_page_resolved token cursor w page st' Hans) as [ev Hpage].
    cbn [fetchCompleted]. unfold pbind at 1. rewrite Hpage.
    unfold pbind, lift, ret, moved. rewrite Hnext, Hlast, Hres. cbn.
    rewrite app_nil_r. eauto.
  - destruct fuel as [|fuel]; [simpl in Hfuel; lia|].
    destruct (fetch_page_resolved token cursor w page st1 Hans) as [ev Hpage].
    destruct (IH fuel (moved w st1 ev) eq_refl) as [ev' Hrec];
      [simpl in Hfuel; lia|].
    cbn [fetchCompleted]. unfold pbind at 1. rewrite Hpage.
    unfold pbind at 1, lift at 1. rewrite Hnext, Hmore.
    unfold pbind at 1. rewrite Hrec.
    unfold pbind, lift, ret, moved. rewrite Hres. cbn.
    rewrite <- app_assoc. eauto.
Qed.

(** C1: the paginator returns all the pages.  When the completed-task
    source serves N pages, every page but the last with a cursor, the
    first to the request for 200 records and each later one to the request
    for 200 records from the cursor of the page before, [fetchCompleted]
    returns, within N calls, the records of the N pages concatenated in
    page order, each page in the order the server gave. *)
Theorem fetchCompleted_all_pages
  (token : value) (pages : list (list value)) (st' : St) (fuel : nat)
  (w : world) :
  serves_pages axios token (upstream w) VNull pages st' ->
  length pages <= fuel ->
  exists w',
    fetchCompleted axios fuel token VNull w
    = (Ok (VObj [("results", VArr (concat pages))]), w') /\
    upstream w' = st' /\ res w' = res w.
Proof.
  intros Hserves Hfuel.
  destruct (fetchCompleted_pages token pages _ _ _ Hserves fuel w eq_refl Hfuel)
    as [ev Hev].
  eexists. split; [exact Hev|]. done.
Qed.

Lemma fetchCompleted_until_failure token pages :
  forall st cursor st',
    fails_after_pages axios token st cursor pages st' ->
    forall fuel (w : world),
      upstream w = st -> length pages < fuel ->
      exists ev,
        fetchCompleted axios fuel token cursor w
        = (Ok (VObj [("results", VArr (concat pages))]), moved w st' ev).
Proof.
  induction 1 as [st cursor error st' Hans Herr
                 |st cursor page results next st1 pages st' Hans [Hres Hnext]
                    Hmore Hrest IH];
    intros fuel w Hw Hfuel; subst st.
  - destruct fuel as [|fuel]; [simpl in Hfuel; lia|].
    destruct (fetch_page_failed token cursor w error st' Hans Herr) as [ev Hpage].
    cbn [fetchCompleted]. unfold pbind at 1. rewrite Hpage.
    unfold ret, moved. cbn. eauto.
  - destruct fuel as [|fuel]; [simpl in Hfuel; lia|].
    destruct (fetch_page_resolved token cursor w page st1 Hans) as [ev Hpage].
    destruct (IH fuel (moved w st1 ev) eq_refl) as [ev' Hrec];
      [simpl in Hfuel; lia|].
    cbn [fetchCompleted]. unfold pbind at 1. rewrite Hpage.
    unfold pbind at 1, lift at 1. rewrite Hnext, Hmore.
    unfold pbind at 1. rewrite Hrec.
    unfold pbind, lift, ret, moved. rewrite Hres. cbn.
    rewrite <- app_assoc. eauto.
Qed.

(** C2: a failed page stops the pagination without an exception.  When the
    source serves k pages, each to the request for 200 records from the
    cursor of the page before, and fails on the request for the page after
    them with an error object, [fetchCompleted] returns the records of the
    k pages concatenated; when its first request fails, it returns the
    empty batch [{ results: [] }], which carries no cursor. *)
Theorem fetchCompleted_stops_at_failure
  (token : value) (pages : list (list value)) (st' : St) (fuel : nat)
  (w : world) :
  fails_after_pages axios token (upstream w) VNull pages st' ->
  length pages < fuel ->
  exists w',
    fetchCompleted axios fuel token VNull w
    = (Ok (VObj [("results", VArr (concat pages))]), w') /\
    upstream w' = st' /\ res w' = res w.
Proof.
  intros Hfails Hfuel.
  destruct (fetchCompleted_until_failure token pages _ _ _ Hfails fuel w
              eq_refl Hfuel) as [ev Hev].
  eexists. split; [exact Hev|]. done.
Qed.


Lemma callApi_sync token (w : world) syncData st1 :
  sync_answer axios token (upstream w) syncData st1 ->
  exists authorization,
    bearer token = Ok authorization /\
    callApi axios "sync" (sync_parameters token) w
    = (Ok syncData,
       moved w st1
         [Requested (Post "sync" authorization (sync_parameters token))]).
Proof.
  intros (authorization & Hb & Hax). exists authorization. split; [done|].
  unfold callApi, pbind, lift, send, moved. cbn [sync_parameters get_field].
  cbn. rewrite Hb, Hax. done.
Qed.

Lemma includes_archived_call format :
  includes FORMAT_SUFFIX_INCLUDE_ARCHIVED format = true ->
  call_includes FORMAT_SUFFIX_INCLUDE_ARCHIVED (VStr format) = Ok true.
Proof. intros H. simpl. by rewrite H. Qed.

(** C7: what the premium gate does.  An archived export for a user who is
    not premium renders the error page with the premium message, and the
    only request made is the sync request, as the claim says; the status,
    though, is 500, the default of [renderErrorPage], because the gate
    passes no error, where the [/export] route passes [{ status: 400 }]
    for its client error. *)
Theorem archived_export_requires_premium
  (token : value) (format : string) (syncData user premium : value)
  (st1 : St) (fuel : nat) (w : world) :
  includes FORMAT_SUFFIX_INCLUDE_ARCHIVED format = true ->
  sync_answer axios token (upstream w) syncData st1 ->
  get_field "user" syncData = Ok user ->
  get_field "is_premium" user = Ok premium ->
  truthy premium = false ->
  exists authorization,
    bearer token = Ok authorization /\
    exportData axios json2csv IS_PRODUCTION fuel token (VStr format) w
    = (Ok tt,
       {| upstream := st1;
          events := events w ++
            [Requested (Post "sync" authorization (sync_parameters token));
             Logged (VStr "Must be Todoist Premium to export archived items.")];
          res := {| status := VNum 500;
                    attachment := attachment (res w);
                    body := Some (Rendered "error"
                      (VStr "Must be Todoist Premium to export archived items.")
                      VUndef) |} |}).
Proof.
  intros Hinc Hsync Huser Hprem Hfalse.
  destruct (callApi_sync token w syncData st1 Hsync) as (authorization & Hb & Hcall).
  exists authorization. split; [done|].
  unfold exportData. unfold pbind at 1. rewrite Hcall. unfold moved.
  assert (syncData <> VUndef) as Hdef by (by intros ->).
  destruct syncData; try done;
    unfold pbind at 1, lift at 1;
    rewrite (includes_archived_call format Hinc);
    unfold pbind at 1, include_archived;
    unfold pbind at 1, lift at 1; rewrite Huser;
    unfold pbind at 1, lift at 1; rewrite Hprem, Hfalse;
    cbn; rewrite <- app_assoc; by destruct IS_PRODUCTION.
Qed.


(** C9: the archived JSON export.  For the format [json_all], a premium
    user and a completed-task history of two pages, the second served to
    the request that carries the cursor of the first, the block that handles
    the suffix leaves the format [json], and the JSON document sent as
    [todoist.json] has [completed.results] equal to the records of the two
    pages concatenated and [items] equal to the live Items followed by
    them; its other fields are those of the Snapshot. *)
Theorem archived_json_export
  (token syncData user premium : value) (live first second : list value)
  (st1 st2 : St) (fuel : nat) (w : world) :
  sync_answer axios token (upstream w) syncData st1 ->
  get_field "user" syncData = Ok user ->
  get_field "is_premium" user = Ok premium ->
  truthy premium = true ->
  get_field "items" syncData = Ok (VArr live) ->
  serves_pages axios token st1 VNull [first; second] st2 ->
  2 <= fuel ->
  exists (authorization : string) (ev : list event) (out : value),
    bearer token = Ok authorization /\
    let w1 := moved w st1 [Requested (Post "sync" authorization
                                        (sync_parameters token))] in
    include_archived axios IS_PRODUCTION fuel token (VStr "json_all")
      syncData w1 = (Ok (Some (VStr "json", out)), moved w1 st2 ev) /\
    exportData axios json2csv IS_PRODUCTION fuel token (VStr "json_all") w
    = (Ok tt,
       {| upstream := st2;
          events := events w1 ++ ev;
          res := {| status := status (res w);
                    attachment := Some "todoist.json";
                    body := Some (Json out) |} |}) /\
    (completed <- get_field "completed" out ;; get_field "results" completed)
    = Ok (VArr (first ++ second)) /\
    get_field "items" out = Ok (VArr (live ++ first ++ second)) /\
    (forall k, k <> "items" -> k <> "completed" ->
               get_field k out = get_field k syncData).
Proof.
  intros Hsync Huser Hprem Htrue Hitems Hpages Hfuel.
  destruct (callApi_sync token w syncData st1 Hsync) as (authorization & Hb & Hcall).
  destruct (array_field_of_object _ _ _ Hitems) as (o & -> & Ho).
  set (w1 := moved w st1
               [Requested (Post "sync" authorization (sync_parameters token))]).
  destruct (fetchCompleted_pages token [first; second] _ _ _ Hpages fuel w1
              eq_refl Hfuel) as [ev Hfetch].
  set (completed := VObj [("results", VArr (first ++ second))]).
  set (out := VObj (obj_set "items" (VArr (live ++ first ++ second))
                      (obj_set "completed" completed o))).
  assert (include_archived axios IS_PRODUCTION fuel token (VStr "json_all")
            (VObj o) w1 = (Ok (Some (VStr "json", out)), moved w1 st2 ev))
    as Hinc.
  { unfold include_archived.
    unfold pbind at 1, lift at 1. rewrite Huser.
    unfold pbind at 1, lift at 1. rewrite Hprem, Htrue. cbn [negb].
    unfold pbind at 1, lift at 1. cbn [call_replace].
    unfold pbind at 1. rewrite Hfetch.
    cbn [concat]. rewrite app_nil_r. fold completed.
    unfold pbind, lift, ret. cbn [set_field get_field].
    assert (obj_get "items" (obj_set "completed" completed o)
            = Some (VArr live)) as ->
      by (by rewrite obj_get_set_ne).
    by cbn. }
  exists authorization, ev, out. split; [exact Hb|]. fold w1. cbv zeta.
  split; [exact Hinc|]. split; [|split; [|split]].
  - unfold exportData. unfold pbind at 1. rewrite Hcall. fold w1.
    unfold pbind at 1, lift at 1. cbn [call_includes].
    assert (includes FORMAT_SUFFIX_INCLUDE_ARCHIVED "json_all" = true) as ->
      by reflexivity.
    unfold pbind at 1. rewrite Hinc.
    by cbn.
  - unfold out. cbn [get_field]. rewrite obj_get_set_ne by done.
    rewrite obj_get_set_eq. by cbn.
  - unfold out. cbn [get_field]. by rewrite obj_get_set_eq.
  - intros k Hk1 Hk2. unfold out. cbn [get_field].
    by rewrite !obj_get_set_ne.
Qed.


Lemma mapM_app_Ok {A B : Type} (f : A -> outcome B) (l1 l2 : list A) a r :
  mapM f (l1 ++ a :: l2) = Ok r ->
  exists (r1 : list B) (b : B) (r2 : list B),
    r = (r1 ++ b :: r2)%list /\ f a = Ok b.
Proof.
  revert r. induction l1 as [|x l1 IH]; intros r H.
  - apply mapM_cons_Ok in H as (b & bs & Hb & _ & ->). by exists [], b, bs.
  - apply mapM_cons_Ok in H as (y & ys & _ & Hys & ->).
    destruct (IH ys Hys) as (r1 & b & r2 & -> & Hb). by exists (y :: r1), b, r2.
Qed.

Lemma resolve_project_content m item resolved :
  resolve_project m item = Ok resolved ->
  get_field "content" resolved = get_field "content" item.
Proof.
  unfold resolve_project. intros H. apply bind_Ok in H as (name & Hname & H).
  injection H as <-. unfold project_name in Hname.
  apply bind_Ok in Hname as (id & Hid & _).
  rewrite <- (get_field_spread "content" item);
    [|set_solver|by eapply get_field_Ok_nullish].
  cbn [get_field]. by rewrite obj_get_set_ne.
Qed.

Lemma resolve_users_content u item resolved :
  resolve_users u item = Ok resolved ->
  get_field "content" resolved = get_field "content" item.
Proof.
  unfold resolve_users. intros H. apply bind_Ok in H as (a & Ha & H).
  apply bind_Ok in H as (b & _ & H). apply bind_Ok in H as (c & _ & H).
  injection H as <-. unfold user_name in Ha.
  apply bind_Ok in Ha as (id & Hid & _).
  rewrite <- (get_field_spread "content" item);
    [|set_solver|by eapply get_field_Ok_nullish].
  cbn [get_field]. by rewrite !obj_get_set_ne.
Qed.

Lemma reassign_items_Ok f syncData s1 :
  reassign_items f syncData = Ok s1 ->
  (forall r, f syncData = Ok r -> exists l, get_field "items" syncData = Ok (VArr l)) ->
  exists o items,
    syncData = VObj o /\ f syncData = Ok items /\
    s1 = VObj (obj_set "items" (VArr items) o).
Proof.
  unfold reassign_items. intros H Hf. apply bind_Ok in H as (items & Hitems & H).
  destruct (Hf items Hitems) as [l Hl].
  destruct (array_field_of_object _ _ _ Hl) as (o & -> & _).
  injection H as <-. eauto.
Qed.

(** The rows the CSV branch of [exportData] hands to the encoder. *)
Lemma csv_rows_missing_content
  (syncData : value) (before after : list value) (item : value) :
  get_field "items" syncData = Ok (VArr (before ++ item :: after)) ->
  get_field "content" item = Ok VNull \/ get_field "content" item = Ok VUndef ->
  forall rows,
    (s1 <- reassign_items convertProjectNames syncData ;;
     s2 <- reassign_items convertUserNames s1 ;;
     s3 <- reassign_items escapeCommas s2 ;;
     get_field "items" s3) <> Ok rows.
Proof.
  intros Hitems Hc rows H.
  apply bind_Ok in H as (s1 & H1 & H). apply bind_Ok in H as (s2 & H2 & H).
  apply bind_Ok in H as (s3 & H3 & _).
  apply reassign_items_Ok in H1 as (o & i1 & -> & HP & ->);
    [|intros r Hr; apply convertProjectNames_Ok in Hr as (?&?&?&?&?); eauto].
  apply convertProjectNames_Ok in HP as (m & l & _ & Hl & HP).
  rewrite Hitems in Hl. injection Hl as <-.
  apply mapM_app_Ok in HP as (b1 & it1 & a1 & -> & Hit1).
  apply reassign_items_Ok in H2 as (o1 & i2 & Ho1 & HU & ->);
    [|intros r Hr; apply convertUserNames_Ok in Hr as (?&?&?&?&?); eauto].
  injection Ho1 as <-.
  apply convertUserNames_Ok in HU as (u & l & _ & Hl & HU).
  destruct (tables_after_items o (VArr (b1 ++ it1 :: a1))) as (_ & _ & Ei).
  rewrite Ei in Hl. injection Hl as <-.
  apply mapM_app_Ok in HU as (b2 & it2 & a2 & -> & Hit2).
  unfold reassign_items in H3. apply bind_Ok in H3 as (i3 & H3 & _).
  revert H3. eapply escapeCommas_no_result.
  - apply tables_after_items.
  - rewrite (resolve_users_content _ _ _ Hit2).
    by rewrite (resolve_project_content _ _ _ Hit1).
Qed.

Lemma respond_csv (syncData : value) (w : @world St) :
  respond json2csv IS_PRODUCTION (VStr "csv") syncData w
  = pbind (lift (s1 <- reassign_items convertProjectNames syncData ;;
                 s2 <- reassign_items convertUserNames s1 ;;
                 s3 <- reassign_items escapeCommas s2 ;;
                 get_field "items" s3))
          (send_csv json2csv IS_PRODUCTION) w.
Proof.
  unfold respond, pbind, lift. cbn [is_string String.eqb Ascii.eqb Bool.eqb].
  destruct (reassign_items convertProjectNames syncData) as [s1| |]; [|done..].
  cbn [bind].
  destruct (reassign_items convertUserNames s1) as [s2| |]; [|done..].
  cbn [bind].
  destruct (reassign_items escapeCommas s2) as [s3| |]; [|done..].
  cbn [bind]. by destruct (get_field "items" s3).
Qed.

(** C10: the sanitizer is not total.  When an Item of the Snapshot has a
    [null] or [undefined] content, [escapeCommas] returns no Item list; when
    the Items before it are sanitized and its own labels are, what it does
    is throw the [TypeError] of [content.toString()]; and a CSV export of
    such a Snapshot ends without a result and without touching the
    response, the two resolvers leaving the content as it is. *)
Theorem escapeCommas_missing_content
  (syncData : value) (before after : list value) (item : value)
  (token : value) (st1 : St) (fuel : nat) (w : world) :
  get_field "items" syncData = Ok (VArr (before ++ item :: after)) ->
  get_field "content" item = Ok VNull \/ get_field "content" item = Ok VUndef ->
  (forall out, escapeCommas syncData <> Ok out) /\
  ((exists sanitized, mapM escape_item before = Ok sanitized) ->
   labels_convert item ->
   escapeCommas syncData = Throw TypeError) /\
  (sync_answer axios token (upstream w) syncData st1 ->
   exists failure ev,
     exportData axios json2csv IS_PRODUCTION fuel token (VStr "csv") w
     = (failure, moved w st1 ev) /\
     forall finished, failure <> Ok finished).
Proof.
  intros Hitems Hc.
  destruct (escape_item_missing_content item Hc) as [Hnone Hthrow].
  split; [by eapply escapeCommas_no_result|]. split.
  - unfold escapeCommas. rewrite Hitems. simpl.
    intros [sanitized Hs] Hl. eapply mapM_app_throw; eauto.
  - intros Hsync.
    destruct (callApi_sync token w syncData st1 Hsync)
      as (authorization & Hb & Hcall).
    pose proof (csv_rows_missing_content syncData before after item Hitems Hc)
      as Hrows.
    destruct (array_field_of_object _ _ _ Hitems) as (o & -> & _).
    unfold exportData. unfold pbind at 1. rewrite Hcall.
    unfold pbind at 1, lift at 1. cbn [call_includes].
    assert (includes FORMAT_SUFFIX_INCLUDE_ARCHIVED "csv" = false) as ->
      by reflexivity.
    rewrite respond_csv. unfold pbind, lift.
    destruct (s1 <- reassign_items convertProjectNames (VObj o) ;;
              s2 <- reassign_items convertUserNames s1 ;;
              s3 <- reassign_items escapeCommas s2 ;;
              get_field "items" s3) as [rows| |] eqn:E.
    + by destruct (Hrows rows).
    + by do 2 eexists.
    + by do 2 eexists.
Qed.

End OrchestratorFacts.

(** *** The theorems at sample sources *)

(** The page request is the one written out, and the source answers it. *)
Ltac asked_and_answered :=
  eexists; split; [econstructor; reflexivity | reflexivity].

Lemma escapeCommas_missing_content_witness :
  (forall out,
     escapeCommas (account false [sample_task; task_without_content])
     <> Ok out) /\
  escapeCommas (account false [sample_task; task_without_content])
  = Throw TypeError /\
  exists failure ev,
    exportData scripted no_csv false 1 (VStr "tok") (VStr "csv")
      (start [Resolved (account false [sample_task; task_without_content])])
    = (failure,
       moved (start [Resolved (account false
                                 [sample_task; task_without_content])])
             [] ev) /\
    forall finished, failure <> Ok finished.
Proof.
  destruct (escapeCommas_missing_content scripted no_csv false
              (account false [sample_task; task_without_content])
              [sample_task] [] task_without_content (VStr "tok") [] 1
              (start [Resolved (account false
                                  [sample_task; task_without_content])]))
    as (H1 & H2 & H3).
  - reflexivity.
  - left. reflexivity.
  - split; [exact H1|]. split.
    + apply H2; eexists; reflexivity.
    + apply H3. eexists. split; reflexivity.
Defined.

Lemma fetchCompleted_all_pages_witness :
  exists w',
    fetchCompleted (todoist (rejection 404) three_pages) 3 (VStr "tok") VNull
      untouched
    = (Ok (VObj [("results",
                  VArr [VNum 1; VNum 2; VNum 3; VNum 4; VNum 5])]), w') /\
    upstream w' = 3 /\ res w' = fresh_response.
Proof.
  apply (fetchCompleted_all_pages (todoist (rejection 404) three_pages)
           (VStr "tok") [[VNum 1; VNum 2]; [VNum 3]; [VNum 4; VNum 5]] 3 3
           untouched).
  - eapply serves_next.
    + asked_and_answered.
    + split; reflexivity.
    + reflexivity.
    + eapply serves_next.
      * asked_and_answered.
      * split; reflexivity.
      * reflexivity.
      * eapply serves_last.
        -- asked_and_answered.
        -- split; reflexivity.
        -- reflexivity.
  - simpl. lia.
Defined.

Lemma fetchCompleted_stops_at_failure_witness :
  exists w',
    fetchCompleted (todoist (rejection 404) broken_history) 2 (VStr "tok")
      VNull untouched
    = (Ok (VObj [("results", VArr [VNum 1; VNum 2])]), w') /\
    upstream w' = 2 /\ res w' = fresh_response.
Proof.
  apply (fetchCompleted_stops_at_failure
           (todoist (rejection 404) broken_history) (VStr "tok")
           [[VNum 1; VNum 2]] 2 2 untouched).
  - eapply fails_later.
    + asked_and_answered.
    + split; reflexivity.
    + reflexivity.
    + eapply fails_now.
      * asked_and_answered.
      * reflexivity.
  - simpl. lia.
Defined.

Lemma archived_export_requires_premium_witness :
  exists authorization,
    bearer (VStr "tok") = Ok authorization /\
    exportData scripted no_csv false 1 (VStr "tok") (VStr "json_all")
      (start [Resolved (account false [sample_task])])
    = (Ok tt,
       {| upstream := [];
          events :=
            [Requested (Post "sync" authorization (sync_parameters (VStr "tok")));
             Logged (VStr "Must be Todoist Premium to export archived items.")];
          res := {| status := VNum 500;
                    attachment := None;
                    body := Some (Rendered "error"
                      (VStr "Must be Todoist Premium to export archived items.")
                      VUndef) |} |}).
Proof.
  apply (archived_export_requires_premium scripted no_csv false (VStr "tok")
           "json_all" (account false [sample_task])
           (VObj [("is_premium", VBool false)]) (VBool false) [] 1
           (start [Resolved (account false [sample_task])])).
  - reflexivity.
  - eexists. split; reflexivity.
  - reflexivity.
  - reflexivity.
  - reflexivity.
Defined.

(** C7 at the failing input, a [json_all] export for an account that is
    not premium: the error page does not go out with a 4xx status. *)
Lemma premium_gate_status_not_4xx :
  ~ exists w' code,
      exportData scripted no_csv false 1 (VStr "tok") (VStr "json_all")
        (start [Resolved (account false [sample_task])]) = (Ok tt, w') /\
      status (res w') = VNum code /\ (400 <= code < 500)%Z.
Proof.
  intros (w' & code & Hrun & Hstatus & Hcode).
  vm_compute in Hrun. injection Hrun as <-.
  simpl in Hstatus. injection Hstatus as <-. lia.
Qed.

Lemma archived_json_export_witness :
  exists (authorization : string) (ev : list event) (out : value),
    bearer (VStr "tok") = Ok authorization /\
    let source := todoist (Resolved (account true [sample_task])) two_pages in
    let w1 := moved untouched 1
                [Requested (Post "sync" authorization
                              (sync_parameters (VStr "tok")))] in
    include_archived source false 2 (VStr "tok") (VStr "json_all")
      (account true [sample_task]) w1
    = (Ok (Some (VStr "json", out)), moved w1 3 ev) /\
    exportData source no_csv false 2 (VStr "tok") (VStr "json_all") untouched
    = (Ok tt,
       {| upstream := 3;
          events := events w1 ++ ev;
          res := {| status := VNum 200;
                    attachment := Some "todoist.json";
                    body := Some (Json out) |} |}) /\
    (completed <- get_field "completed" out ;; get_field "results" completed)
    = Ok (VArr ([VNum 1; VNum 2] ++ [VNum 3])) /\
    get_field "items" out
    = Ok (VArr ([sample_task] ++ [VNum 1; VNum 2] ++ [VNum 3])) /\
    (forall k, k <> "items" -> k <> "completed" ->
               get_field k out = get_field k (account true [sample_task])).
Proof.
  apply (archived_json_export
           (todoist (Resolved (account true [sample_task])) two_pages)
           no_csv false (VStr "tok")
           (account true [sample_task]) (VObj [("is_premium", VBool true)])
           (VBool true) [sample_task] [VNum 1; VNum 2] [VNum 3]
           1 3 2 untouched).
  - eexists. split; reflexivity.
  - reflexivity.
  - reflexivity.
  - reflexivity.
  - reflexivity.
  - eapply serves_next.
    + asked_and_answered.
    + split; reflexivity.
    + reflexivity.
    + eapply serves_last.
      * asked_and_answered.
      * split; reflexivity.
      * reflexivity.
  - lia.
Defined.

(** * Further properties of the code *)

(** ** Strings of the format parameter and of the request log *)

Lemma prefix_empty (s : string) : String.prefix "" s = true.
Proof. by destruct s. Qed.

Lemma append_cons (c : ascii) (s t : string) :
  String c s ++ t = String c (s ++ t).
Proof. reflexivity. Qed.

Lemma append_empty (t : string) : "" ++ t = t.
Proof. reflexivity. Qed.

Lemma prefix_app (pat post : string) : String.prefix pat (pat ++ post) = true.
Proof.
  induction pat as [|c pat IH].
  - apply prefix_empty.
  - rewrite append_cons. cbn [String.prefix].
    destruct (ascii_dec c c); [exact IH | contradiction].
Qed.

Lemma prefix_split (pat s : string) :
  String.prefix pat s = true -> exists post, s = pat ++ post.
Proof.
  revert s. induction pat as [|c pat IH]; intros s H.
  - by exists s.
  - destruct s as [|c' s]; [discriminate|]. cbn [String.prefix] in H.
    destruct (ascii_dec c c') as [<-|]; [|discriminate].
    destruct (IH s H) as [post ->]. by exists post.
Qed.

Lemma substring_all (s : string) : String.substring 0 (String.length s) s = s.
Proof. induction s as [|c s IH]; simpl; [done | by rewrite IH]. Qed.

Lemma substring_after (pat post : string) :
  String.substring (String.length pat)
    (String.length (pat ++ post) - String.length pat) (pat ++ post) = post.
Proof.
  induction pat as [|c pat IH].
  - rewrite append_empty. simpl. rewrite Nat.sub_0_r. apply substring_all.
  - rewrite append_cons. simpl. exact IH.
Qed.

Lemma includes_prefix (pat s : string) :
  String.prefix pat s = true -> includes pat s = true.
Proof. intros H. destruct s; cbn [includes]; by rewrite H. Qed.

Lemma includes_occurrence (pat s : string) :
  includes pat s = true <-> exists pre post, s = pre ++ pat ++ post.
Proof.
  split.
  - induction s as [|c s IH]; cbn [includes]; intros H.
    + rewrite orb_false_r in H. destruct (prefix_split _ _ H) as [post Hs].
      by exists "", post.
    + apply orb_true_iff in H as [H | H].
      * destruct (prefix_split _ _ H) as [post Hs]. by exists "", post.
      * destruct (IH H) as (pre & post & ->). by exists (String c pre), post.
  - intros (pre & post & ->). induction pre as [|c pre IH].
    + rewrite append_empty. apply includes_prefix, prefix_app.
    + rewrite append_cons. cbn [includes]. by rewrite IH, orb_true_r.
Qed.

Lemma append_empty_r (s : string) : s ++ "" = s.
Proof. induction s as [|c s IH]; [done | by rewrite append_cons, IH]. Qed.

Lemma replace_first_absent (pat by_ s : string) :
  includes pat s = false -> replace_first pat by_ s = s.
Proof.
  induction s as [|c s IH]; cbn [includes replace_first]; intros H.
  - rewrite orb_false_r in H. by rewrite H.
  - apply orb_false_iff in H as [H1 H2]. by rewrite H1, IH.
Qed.

Lemma prefix_cons (a b : ascii) (p s : string) :
  String.prefix (String a p) (String b s)
  = if ascii_dec a b then String.prefix p s else false.
Proof. reflexivity. Qed.

Lemma suffix_not_prefix_after (c : ascii) (f post : string) :
  String.prefix FORMAT_SUFFIX_INCLUDE_ARCHIVED (String c f) = false ->
  String.prefix FORMAT_SUFFIX_INCLUDE_ARCHIVED
    (String c (f ++ FORMAT_SUFFIX_INCLUDE_ARCHIVED ++ post)) = false.
Proof.
  unfold FORMAT_SUFFIX_INCLUDE_ARCHIVED. rewrite !prefix_cons.
  destruct (ascii_dec "_" c); [|done].
  destruct f as [|c1 f]; [done|]. rewrite append_cons, !prefix_cons.
  destruct (ascii_dec "a" c1); [|done].
  destruct f as [|c2 f]; [done|]. rewrite append_cons, !prefix_cons.
  destruct (ascii_dec "l" c2); [|done].
  destruct f as [|c3 f]; [done|]. rewrite append_cons, !prefix_cons.
  destruct (ascii_dec "l" c3); [|done].
  intros H. by rewrite prefix_empty in H.
Qed.

Lemma strip_first_suffix (pre post : string) :
  includes FORMAT_SUFFIX_INCLUDE_ARCHIVED pre = false ->
  replace_first FORMAT_SUFFIX_INCLUDE_ARCHIVED ""
    (pre ++ FORMAT_SUFFIX_INCLUDE_ARCHIVED ++ post) = pre ++ post.
Proof.
  induction pre as [|c pre IH]; intros H.
  - rewrite !append_empty.
    destruct (FORMAT_SUFFIX_INCLUDE_ARCHIVED ++ post) eqn:E;
      [discriminate|]. rewrite <- E. clear E.
    assert (forall s, replace_first FORMAT_SUFFIX_INCLUDE_ARCHIVED "" s
              = if String.prefix FORMAT_SUFFIX_INCLUDE_ARCHIVED s
                then String.substring
                       (String.length FORMAT_SUFFIX_INCLUDE_ARCHIVED)
                       (String.length s
                        - String.length FORMAT_SUFFIX_INCLUDE_ARCHIVED) s
                else match s with
                     | EmptyString => EmptyString
                     | String c s' =>
                         String c (replace_first
                                     FORMAT_SUFFIX_INCLUDE_ARCHIVED "" s')
                     end) as Hunfold by (by intros []).
    by rewrite Hunfold, prefix_app, substring_after.
  - cbn [includes] in H. apply orb_false_iff in H as [H1 H2].
    rewrite !append_cons. cbn [replace_first].
    rewrite (suffix_not_prefix_after c pre post H1).
    by rewrite (IH H2).
Qed.

Lemma strip_appended_suffix (f : string) :
  includes FORMAT_SUFFIX_INCLUDE_ARCHIVED f = false ->
  replace_first FORMAT_SUFFIX_INCLUDE_ARCHIVED ""
    (f ++ FORMAT_SUFFIX_INCLUDE_ARCHIVED) = f.
Proof.
  intros H. pose proof (strip_first_suffix f "" H) as E.
  by rewrite !append_empty_r in E.
Qed.

Lemma suffix_gate (pre post : string) :
  includes FORMAT_SUFFIX_INCLUDE_ARCHIVED pre = false ->
  call_includes FORMAT_SUFFIX_INCLUDE_ARCHIVED
    (VStr (pre ++ FORMAT_SUFFIX_INCLUDE_ARCHIVED ++ post)) = Ok true /\
  call_replace FORMAT_SUFFIX_INCLUDE_ARCHIVED ""
    (VStr (pre ++ FORMAT_SUFFIX_INCLUDE_ARCHIVED ++ post))
  = Ok (VStr (pre ++ post)).
Proof.
  intros H. split.
  - cbn [call_includes]. f_equal. apply includes_occurrence. by exists pre, post.
  - cbn [call_replace]. by rewrite strip_first_suffix.
Qed.

(** X1.  The archive gate of [exportData] looks for the suffix anywhere in the
    format, and the block behind it removes the first occurrence only:
    what stands before and after it stays, a second suffix included. *)
Theorem archived_suffix_anywhere (pre post : string) :
  includes FORMAT_SUFFIX_INCLUDE_ARCHIVED pre = false ->
  call_includes FORMAT_SUFFIX_INCLUDE_ARCHIVED
    (VStr (pre ++ FORMAT_SUFFIX_INCLUDE_ARCHIVED ++ post)) = Ok true /\
  call_replace FORMAT_SUFFIX_INCLUDE_ARCHIVED ""
    (VStr (pre ++ FORMAT_SUFFIX_INCLUDE_ARCHIVED ++ post))
  = Ok (VStr (pre ++ post)) /\
  (includes FORMAT_SUFFIX_INCLUDE_ARCHIVED post = true ->
   call_includes FORMAT_SUFFIX_INCLUDE_ARCHIVED (VStr (pre ++ post)) = Ok true).
Proof.
  intros H. destruct (suffix_gate pre post H) as [Hinc Hrep].
  split; [done|]. split; [done|].
  intros E. cbn [call_includes]. f_equal.
    apply includes_occurrence in E as (a & b & ->).
    apply includes_occurrence. exists (pre ++ a), b.
    clear. induction pre as [|c pre IH]; [done|].
    by rewrite !append_cons, IH.
Qed.



(** ** The denormalizer, further *)

Lemma fold_entities_last field (before after : list value) (e : value) k name :
  has_key k e = true ->
  get_field field e = Ok name ->
  forallb (fun x => negb (has_key k x)) after = true ->
  forall m0 m, foldM (add_entity field) m0 (before ++ e :: after) = Ok m ->
               m !! k = Some name.
Proof.
  intros Hk Hname Hafter. induction before as [|b before IH]; intros m0 m H.
  - simpl in H. apply bind_Ok in H as (m1 & H1 & H).
    assert (m1 !! k = Some name) as Hm1.
    { unfold add_entity in H1. unfold has_key in Hk.
      apply bind_Ok in H1 as (id & Hid & H1). rewrite Hid in Hk. simpl in Hk.
      apply bind_Ok in H1 as (key & Hkey & H1). rewrite Hkey in Hk.
      apply String.eqb_eq in Hk as ->.
      rewrite Hname in H1. injection H1 as <-. apply lookup_insert_eq. }
    clear H1. revert m1 m H Hm1.
    induction after as [|a after IHa]; intros m1 m H Hm1.
    + by injection H as <-.
    + simpl in Hafter. apply andb_true_iff in Hafter as [Ha Hafter].
      simpl in H. apply bind_Ok in H as (m2 & H2 & H).
      apply (IHa Hafter m2 m H).
      unfold add_entity in H2.
      apply bind_Ok in H2 as (id & Hid & H2).
      apply bind_Ok in H2 as (key & Hkey & H2).
      apply bind_Ok in H2 as (name' & _ & H2). injection H2 as <-.
      rewrite lookup_insert_ne; [done|].
      intros ->. unfold has_key in Ha. rewrite Hid in Ha. simpl in Ha.
      rewrite Hkey in Ha. by rewrite String.eqb_refl in Ha.
  - simpl in H. apply bind_Ok in H as (m1 & _ & H). by apply (IH m1).
Qed.

Lemma names_lookup_found (names : gmap string value) k v :
  names !! k = Some v -> names_lookup names k = Ok v.
Proof. intros H. unfold names_lookup. by rewrite H. Qed.

(** X3.  A reference that is present resolves to a name: an Item's [project_id]
    with the property key of a Project's id becomes the [name] of the last
    Project with that key in the Snapshot. *)
Theorem convertProjectNames_resolves
  (syncData : value) (before after items : list value) (project name : value)
  (k : string) :
  is_snapshot syncData = true ->
  get_field "projects" syncData = Ok (VArr (before ++ project :: after)) ->
  has_key k project = true ->
  get_field "name" project = Ok name ->
  forallb (fun p => negb (has_key k p)) after = true ->
  get_field "items" syncData = Ok (VArr items) ->
  exists out,
    convertProjectNames syncData = Ok out /\
    Forall2 (fun item resolved =>
      forall id, get_field "project_id" item = Ok id ->
                 to_string id = Ok k ->
                 get_field "project_id" resolved = Ok name) items out.
Proof.
  intros Hs Hp Hk Hname Hafter Hitems.
  destruct (is_snapshot_parts syncData Hs)
    as (m & u & items' & Hm & _ & Hi & HF & _).
  rewrite Hitems in Hi. injection Hi as <-.
  assert (m !! k = Some name) as Hmk.
  { unfold project_table in Hm. rewrite Hp in Hm. cbn [bind array_receiver] in Hm.
    rewrite add_project_name_entity in Hm.
    by eapply fold_entities_last. }
  rewrite forallb_forall in HF.
  destruct (mapM_Forall2 (resolve_project m) (fun item resolved =>
      forall id, get_field "project_id" item = Ok id ->
                 to_string id = Ok k ->
                 get_field "project_id" resolved = Ok name) items)
    as (out & Hout & HR).
  { apply Forall_forall. intros item Hin. apply list_elem_of_In in Hin.
    destruct (is_item_references item (HF item Hin)) as (Href & _).
    destruct (project_name_total m item Href) as [found Hfound].
    unfold resolve_project. rewrite Hfound. cbn [bind]. eexists. split; [done|].
    intros id Hid Hkey. unfold project_name in Hfound.
    rewrite Hid in Hfound. cbn [bind] in Hfound. rewrite Hkey in Hfound.
    cbn [bind] in Hfound. rewrite (names_lookup_found _ _ _ Hmk) in Hfound.
    injection Hfound as <-. cbn [get_field]. by rewrite obj_get_set_eq. }
  exists out. split; [|done]. apply convertProjectNames_Ok. by exists m, items.
Qed.

(** X4.  A user reference that is present resolves to the [full_name] of the last
    Collaborator with that id, or to [null] when that name is missing or
    empty. *)
Theorem convertUserNames_resolves
  (syncData : value) (before after items : list value)
  (collaborator name : value) (k : string) :
  is_snapshot syncData = true ->
  get_field "collaborators" syncData
  = Ok (VArr (before ++ collaborator :: after)) ->
  has_key k collaborator = true ->
  get_field "full_name" collaborator = Ok name ->
  forallb (fun c => negb (has_key k c)) after = true ->
  get_field "items" syncData = Ok (VArr items) ->
  exists out,
    convertUserNames syncData = Ok out /\
    Forall2 (fun item resolved =>
      forall role id,
        role ∈ user_roles ->
        get_field role item = Ok id ->
        to_string id = Ok k ->
        get_field role resolved = Ok (if truthy name then name else VNull))
      items out.
Proof.
  intros Hs Hc Hk Hname Hafter Hitems.
  destruct (is_snapshot_parts syncData Hs)
    as (m & u & items' & _ & Hu & Hi & HF & _).
  rewrite Hitems in Hi. injection Hi as <-.
  assert (u !! k = Some name) as Huk.
  { unfold user_table in Hu. rewrite Hc in Hu. cbn [bind array_receiver] in Hu.
    rewrite add_user_name_entity in Hu.
    by eapply fold_entities_last. }
  rewrite forallb_forall in HF.
  destruct (mapM_Forall2 (resolve_users u) (fun item resolved =>
      forall role id,
        role ∈ user_roles ->
        get_field role item = Ok id ->
        to_string id = Ok k ->
        get_field role resolved = Ok (if truthy name then name else VNull))
      items) as (out & Hout & HR).
  { apply Forall_forall. intros item Hin. apply list_elem_of_In in Hin.
    destruct (is_item_references item (HF item Hin)) as (_ & Ha & Hb & Hc').
    destruct (user_name_total u _ item Ha) as [a Ha'].
    destruct (user_name_total u _ item Hb) as [b Hb'].
    destruct (user_name_total u _ item Hc') as [c Hc''].
    unfold resolve_users. rewrite Ha', Hb', Hc''. cbn [bind].
    eexists. split; [done|].
    intros role id Hrole Hid Hkey.
    assert (user_name u role item = Ok (if truthy name then name else VNull))
      as Hfound.
    { unfold user_name. rewrite Hid. cbn [bind]. rewrite Hkey. cbn [bind].
      by rewrite (names_lookup_found _ _ _ Huk). }
    unfold user_roles in Hrole. rewrite !elem_of_cons, elem_of_nil in Hrole.
    destruct Hrole as [-> | [-> | [-> | []]]]; cbn [get_field];
      rewrite !obj_get_set; simpl; congruence. }
  exists out. split; [|done]. apply convertUserNames_Ok. by exists u, items.
Qed.

(** X5.  Each transform writes its own fields and nothing else: it returns as
    many Items as it was given, in the same order, and every other field of
    an Item reads as before. *)
Theorem transforms_keep_other_fields (syncData : value) (items : list value) :
  get_field "items" syncData = Ok (VArr items) ->
  (forall out, convertProjectNames syncData = Ok out ->
     Forall2 (fun item resolved =>
       exists o, resolved = VObj o /\
                 forall k, k <> "project_id" ->
                           obj_get k o = obj_get k (spread item)) items out) /\
  (forall out, convertUserNames syncData = Ok out ->
     Forall2 (fun item resolved =>
       exists o, resolved = VObj o /\
                 forall k, k ∉ user_roles ->
                           obj_get k o = obj_get k (spread item)) items out) /\
  (forall out, escapeCommas syncData = Ok out ->
     Forall2 (fun item sanitized =>
       exists o, sanitized = VObj o /\
                 forall k, k <> "labels" -> k <> "content" ->
                           obj_get k o = obj_get k (spread item)) items out).
Proof.
  intros Hitems. split; [|split].
  - intros out H. apply convertProjectNames_Ok in H as (m & l & _ & Hl & H).
    rewrite Hitems in Hl. injection Hl as <-.
    revert out H. apply mapM_Ok_Forall2. intros item resolved H.
    unfold resolve_project in H. apply bind_Ok in H as (name & _ & H).
    injection H as <-. eexists. split; [done|].
    intros k Hk. by rewrite obj_get_set_ne.
  - intros out H. apply convertUserNames_Ok in H as (u & l & _ & Hl & H).
    rewrite Hitems in Hl. injection Hl as <-.
    revert out H. apply mapM_Ok_Forall2. intros item resolved H.
    unfold resolve_users in H. apply bind_Ok in H as (a & _ & H).
    apply bind_Ok in H as (b & _ & H). apply bind_Ok in H as (c & _ & H).
    injection H as <-. eexists. split; [done|].
    intros k Hk. unfold user_roles in Hk.
    rewrite !not_elem_of_cons in Hk. destruct Hk as (H1 & H2 & H3 & _).
    by rewrite !obj_get_set_ne.
  - intros out H. unfold escapeCommas in H. rewrite Hitems in H.
    cbn [bind array_receiver] in H.
    revert out H. apply mapM_Ok_Forall2. intros item sanitized H.
    unfold escape_item in H. apply bind_Ok in H as (l & _ & H).
    apply bind_Ok in H as (c & _ & H). injection H as <-.
    eexists. split; [done|]. intros k H1 H2. by rewrite !obj_get_set_ne.
Qed.

Lemma transforms_keep_other_fields_witness :
  exists out,
    convertProjectNames sample_snapshot = Ok out /\
    Forall2 (fun item resolved =>
       exists o, resolved = VObj o /\
                 forall k, k <> "project_id" ->
                           obj_get k o = obj_get k (spread item))
      [sample_task; bare_task] out.
Proof.
  destruct (transforms_keep_other_fields sample_snapshot
              [sample_task; bare_task] eq_refl) as (H & _ & _).
  eexists. split; [reflexivity|]. apply H. reflexivity.
Defined.

Lemma quoted_length (s : string) :
  (0 <? Z.of_nat (String.length (quoted s)))%Z = true.
Proof.
  unfold quoted, dquote. rewrite append_cons. cbn [String.length].
  apply Z.ltb_lt. lia.
Qed.

(** X6.  The sanitizer cannot be run on its own output: an Item that had labels
    makes the second run throw, because the labels are now a string, which
    has no [join]; an Item without labels gets a second pair of quote
    characters around its content. *)
Theorem escape_item_again (item sanitized : value) :
  escape_item item = Ok sanitized ->
  (forall labels, label_strings item labels -> labels <> [] ->
     escape_item sanitized = Throw TypeError) /\
  (without_labels item ->
   exists text again,
     get_field "content" sanitized = Ok (VStr text) /\
     escape_item sanitized = Ok again /\
     get_field "content" again = Ok (VStr (dquote ++ text ++ dquote)) /\
     get_field "labels" again = Ok VNull).
Proof.
  intros H. unfold escape_item in H. apply bind_Ok in H as (l & Hl & H).
  apply bind_Ok in H as (c & Hc & H). injection H as <-.
  unfold escaped_content in Hc. apply bind_Ok in Hc as (content & _ & Hc).
  apply bind_Ok in Hc as (text & _ & Hc). injection Hc as <-.
  set (o := obj_set "content" (VStr (quoted text))
              (obj_set "labels" l (spread item))).
  assert (get_field "labels" (VObj o) = Ok l) as Hol.
  { unfold o. cbn [get_field]. rewrite obj_get_set_ne by done.
    by rewrite obj_get_set_eq. }
  assert (get_field "content" (VObj o) = Ok (VStr (quoted text))) as Hoc.
  { unfold o. cbn [get_field]. by rewrite obj_get_set_eq. }
  split.
  - intros [|s labels] Hstr Hne; [done|].
    rewrite (escaped_labels_strings _ _ _ Hstr) in Hl. injection Hl as <-.
    unfold escape_item, escaped_labels. rewrite Hol.
    cbn [bind nullish get_field String.eqb Ascii.eqb Bool.eqb gt_zero].
    by rewrite quoted_length.
  - intros Hnone. rewrite (escaped_labels_none _ Hnone) in Hl.
    injection Hl as <-.
    exists (quoted text). eexists. split; [exact Hoc|].
    unfold escape_item, escaped_labels, escaped_content. rewrite Hol, Hoc.
    cbn [bind nullish gt_zero call_toString to_string spread].
    split; [reflexivity|]. split.
    + cbn [get_field]. by rewrite obj_get_set_eq.
    + cbn [get_field]. rewrite obj_get_set_ne by done.
      by rewrite obj_get_set_eq.
Qed.

Lemma escape_item_again_witness :
  escape_item
    (VObj [("id", VNum 10); ("project_id", VNum 1);
           ("content", VStr (quoted "buy milk"));
           ("labels", VStr (quoted "urgent,home"))])
  = Throw TypeError.
Proof.
  destruct (escape_item_again sample_task
              (VObj [("id", VNum 10); ("project_id", VNum 1);
                     ("content", VStr (quoted "buy milk"));
                     ("labels", VStr (quoted "urgent,home"))]) eq_refl)
    as [H _].
  apply (H ["urgent"; "home"]); [reflexivity | discriminate].
Defined.

Lemma get_field_spread_labels item :
  nullish item = false ->
  get_field "labels" (VObj (spread item)) = get_field "labels" item.
Proof.
  intros Hn. destruct item; try done; unfold get_field, spread, read_member.
  - by rewrite (obj_get_numerals (fun c => VStr (String c "")) Z.of_nat).
  - by rewrite (obj_get_numerals (fun e => e) Z.of_nat).
Qed.

Lemma escaped_labels_same a b :
  get_field "labels" a = get_field "labels" b ->
  escaped_labels a = escaped_labels b.
Proof. unfold escaped_labels. by intros ->. Qed.

Lemma escaped_content_same a b :
  get_field "content" a = get_field "content" b ->
  escaped_content a = escaped_content b.
Proof. unfold escaped_content. by intros ->. Qed.

Lemma csv_row_Ok m u item :
  (exists name, project_name m item = Ok name) ->
  (forall role, role ∈ user_roles -> exists v, user_name u role item = Ok v) ->
  content_converts item -> labels_convert item ->
  exists row,
    csv_row m u item = Ok row /\
    get_field "project_id" row = project_name m item /\
    (forall role, role ∈ user_roles ->
                  get_field role row = user_name u role item) /\
    get_field "labels" row = escaped_labels item /\
    get_field "content" row = escaped_content item.
Proof.
  intros [name Hname] Hroles [text Htext] [labels Hlabels].
  destruct (Hroles "assigned_by_uid") as [a Ha]; [unfold user_roles; set_solver|].
  destruct (Hroles "added_by_uid") as [b Hb]; [unfold user_roles; set_solver|].
  destruct (Hroles "user_id") as [c Hc]; [unfold user_roles; set_solver|].
  assert (nullish item = false) as Hn.
  { unfold project_name in Hname. apply bind_Ok in Hname as (v & Hv & _).
    by eapply get_field_Ok_nullish. }
  set (o := obj_set "user_id" c
              (obj_set "added_by_uid" b
                 (obj_set "assigned_by_uid" a
                    (obj_set "project_id" name (spread item))))).
  assert (project_then_users m u item = Ok (VObj o)) as Hpu.
  { apply project_then_users_Ok. by exists name, a, b, c. }
  assert (escaped_labels (VObj o) = Ok labels) as Hl.
  { rewrite <- Hlabels. apply escaped_labels_same.
    rewrite <- (get_field_spread_labels item Hn). unfold o. cbn [get_field].
    by rewrite !obj_get_set_ne. }
  assert (escaped_content (VObj o) = Ok text) as Hc'.
  { rewrite <- Htext. apply escaped_content_same.
    rewrite <- (get_field_spread "content" item) by (done || set_solver).
    unfold o. cbn [get_field]. by rewrite !obj_get_set_ne. }
  eexists. split.
  { unfold csv_row. rewrite Hpu. cbn [bind]. unfold escape_item.
    rewrite Hl, Hc'. reflexivity. }
  cbn [spread get_field]. unfold o. split_and!.
  - rewrite !obj_get_set_ne by done. by rewrite obj_get_set_eq, Hname.
  - intros role Hrole. unfold user_roles in Hrole.
    rewrite !elem_of_cons, elem_of_nil in Hrole.
    destruct Hrole as [-> | [-> | [-> | []]]]; rewrite !obj_get_set; simpl;
      congruence.
  - rewrite obj_get_set_ne by done. by rewrite obj_get_set_eq, Hlabels.
  - by rewrite obj_get_set_eq, Htext.
Qed.

Lemma csv_rows_fused syncData (m u : gmap string value) items rows :
  project_table syncData = Ok m ->
  user_table syncData = Ok u ->
  get_field "items" syncData = Ok (VArr items) ->
  mapM (csv_row m u) items = Ok rows ->
  csv_rows syncData = Ok (VArr rows).
Proof.
  intros Hm Hu Hitems Hrows.
  destruct (array_field_of_object _ _ _ Hitems) as (o & -> & _).
  unfold csv_row in Hrows. apply mapM_compose in Hrows.
  apply bind_Ok in Hrows as (i2 & Hi2 & Hrows).
  unfold project_then_users in Hi2. apply mapM_compose in Hi2.
  apply bind_Ok in Hi2 as (i1 & Hi1 & Hi2).
  unfold csv_rows, reassign_items.
  assert (convertProjectNames (VObj o) = Ok i1) as ->
    by (apply convertProjectNames_Ok; eauto).
  cbn [bind set_field].
  destruct (tables_after_items o (VArr i1)) as (_ & Eu & Ei).
  assert (convertUserNames (VObj (obj_set "items" (VArr i1) o)) = Ok i2) as ->.
  { apply convertUserNames_Ok. exists u, i1. by rewrite Eu, Ei. }
  cbn [bind set_field].
  destruct (tables_after_items (obj_set "items" (VArr i1) o) (VArr i2))
    as (_ & _ & Ei2).
  unfold escapeCommas. rewrite Ei2. cbn [bind array_receiver]. rewrite Hrows.
  cbn [bind set_field]. apply tables_after_items.
Qed.


(** ** The paginator, the orchestrator and the routes, further *)

Section RouteFacts.

Context {St : Type}.
Variable axios : St -> request -> reply * St.
Variable json2csv : value -> conversion.
Variable IS_PRODUCTION : bool.
Variable authorizeURL : value -> string.
Variable getToken : St -> value -> reply * St.

Lemma query_limit (cursor : value) query :
  query_of (completed_params cursor) = Ok query ->
  exists rest, query = ("limit", "200") :: rest /\
               (truthy cursor = false -> rest = []) /\
               (truthy cursor = true ->
                exists c, to_string cursor = Ok c /\ rest = [("cursor", c)]).
Proof.
  unfold completed_params, query_of. destruct (truthy cursor) eqn:Ht.
  - assert (nullish cursor = false) as Hn by (by destruct cursor).
    cbn. rewrite Hn. rewrite !decide_True by done. cbn.
    destruct (to_string cursor) as [c| |] eqn:Hc; cbn; try discriminate.
    intros H. injection H as <-. eexists. split; [done|]. split; [done|].
    intros _. by exists c.
  - cbn. rewrite !decide_True by done. cbn.
    intros H. injection H as <-. eexists. split; [done|]. split; [done|].
    discriminate.
Qed.

Lemma fetch_page_request token cursor (w : @world St) page st' :
  page_answer axios token cursor (upstream w) (Resolved page) st' ->
  exists e, is_page_request e /\
            fetch_page axios token cursor w = (Ok (Some page), moved w st' [e]).
Proof.
  intros (query & authorization & Hq & Hb & Hax)%page_answer_sent.
  destruct (query_limit cursor query Hq) as (rest & -> & _).
  eexists. split; [by exists authorization, rest|].
  unfold fetch_page, try_catch, callRestApi, pbind, lift, send, ret, moved.
  by rewrite Hq, Hb, Hax.
Qed.

Lemma plain_page_records page :
  plain_page page ->
  exists results,
    get_field "results" page = Ok results /\
    js_or results (VArr []) = VArr (page_records page).
Proof.
  intros (results & Hr & Hplain). exists results. split; [done|].
  unfold page_records, js_or. rewrite Hr.
  destruct Hplain as [[l ->] | Hfalse]; [done|].
  rewrite Hfalse. by destruct results.
Qed.

Lemma fetchCompleted_run token pages :
  forall st cursor st',
    answers_pages axios token st cursor pages st' ->
    Forall plain_page pages ->
    forall fuel (w : @world St),
      upstream w = st -> length pages <= fuel ->
      exists ev,
        fetchCompleted axios fuel token cursor w
        = (Ok (VObj [("results", VArr (concat (map page_records pages)))]),
           moved w st' ev) /\
        length ev = length pages /\ Forall is_page_request ev.
Proof.
  induction 1 as [st cursor page next st' Hans Hnext Hlast
                 |st cursor page next st1 pages st' Hans Hnext Hmore Hrest IH];
    intros Hplain fuel w Hw Hfuel; subst st;
    apply Forall_cons in Hplain as [Hpage Hplain];
    destruct (plain_page_records page Hpage) as (results & Hres & Hor);
    (destruct fuel as [|fuel]; [simpl in Hfuel; lia|]);
    destruct (fetch_page_request token cursor w page _ Hans) as (e & He & Hfetch).
  - exists [e]. split; [|by repeat constructor].
    cbn [fetchCompleted]. unfold pbind at 1. rewrite Hfetch.
    unfold pbind, lift, ret. rewrite Hnext, Hlast, Hres, Hor. cbn.
    by rewrite app_nil_r.
  - destruct (IH Hplain fuel (moved w st1 [e]) eq_refl) as (ev & Hrec & Hlen & Hev);
      [simpl in Hfuel; lia|].
    exists (e :: ev). split; [|split; [simpl; lia | by constructor]].
    cbn [fetchCompleted]. unfold pbind at 1. rewrite Hfetch.
    unfold pbind at 1, lift at 1. rewrite Hnext, Hmore.
    unfold pbind at 1. rewrite Hrec.
    unfold pbind, lift, ret, moved. rewrite Hres, Hor. cbn.
    by rewrite <- app_assoc.
Qed.

(** X7.  A page without [results] counts as an empty page: when every page of
    the source has an array of records or none, the paginator returns the
    records of the pages that have some, in page order. *)
Theorem fetchCompleted_missing_results
  (token : value) (pages : list value) (st' : St) (fuel : nat) (w : world) :
  answers_pages axios token (upstream w) VNull pages st' ->
  Forall plain_page pages ->
  length pages <= fuel ->
  exists w',
    fetchCompleted axios fuel token VNull w
    = (Ok (VObj [("results", VArr (concat (map page_records pages)))]), w') /\
    upstream w' = st'.
Proof.
  intros Hrun Hplain Hfuel.
  destruct (fetchCompleted_run token pages _ _ _ Hrun Hplain fuel w eq_refl Hfuel)
    as (ev & Hev & _).
  eexists. split; [exact Hev | done].
Qed.

(** X8.  The paginator asks once per page and not once more: the events of a
    run over N pages are N page requests, each with the page size 200 as
    its first parameter, and no log entry. *)
Theorem fetchCompleted_requests
  (token : value) (pages : list value) (st' : St) (fuel : nat) (w : world) :
  answers_pages axios token (upstream w) VNull pages st' ->
  Forall plain_page pages ->
  length pages <= fuel ->
  exists result ev,
    fetchCompleted axios fuel token VNull w = (Ok result, moved w st' ev) /\
    length ev = length pages /\
    Forall is_page_request ev.
Proof.
  intros Hrun Hplain Hfuel.
  destruct (fetchCompleted_run token pages _ _ _ Hrun Hplain fuel w eq_refl Hfuel)
    as (ev & Hev & Hlen & Hreq).
  by do 2 eexists.
Qed.

Lemma fetchCompleted_broken token pages :
  forall st cursor st',
    breaks_after_pages axios token st cursor pages st' ->
    forall fuel (w : @world St),
      upstream w = st -> length pages < fuel ->
      exists ev,
        fetchCompleted axios fuel token cursor w
        = (Throw TypeError, moved w st' ev).
Proof.
  induction 1 as [st cursor page st' Hans Hnull
                 |st cursor page results next st1 pages st' Hans [Hres Hnext]
                    Hmore Hrest IH];
    intros fuel w Hw Hfuel; subst st;
    (destruct fuel as [|fuel]; [simpl in Hfuel; lia|]);
    destruct (fetch_page_request token cursor w page _ Hans) as (e & He & Hfetch).
  - exists [e]. cbn [fetchCompleted]. unfold pbind at 1. rewrite Hfetch.
    unfold pbind, lift. by destruct page.
  - destruct (IH fuel (moved w st1 [e]) eq_refl) as (ev & Hrec);
      [simpl in Hfuel; lia|].
    exists (e :: ev). cbn [fetchCompleted]. unfold pbind at 1. rewrite Hfetch.
    unfold pbind at 1, lift at 1. rewrite Hnext, Hmore.
    unfold pbind at 1. rewrite Hrec. unfold moved. cbn.
    by rewrite <- app_assoc.
Qed.

(** X9.  Only a failed request is swallowed.  When a request is answered with a
    body that is [null] or [undefined], reading its cursor throws outside
    the [try], and [fetchCompleted] throws the [TypeError]: the records of
    the pages fetched before are not returned. *)
Theorem fetchCompleted_malformed_page
  (token : value) (pages : list (list value)) (st' : St) (fuel : nat)
  (w : world) :
  breaks_after_pages axios token (upstream w) VNull pages st' ->
  length pages < fuel ->
  exists w',
    fetchCompleted axios fuel token VNull w = (Throw TypeError, w') /\
    upstream w' = st' /\ res w' = res w.
Proof.
  intros Hrun Hfuel.
  destruct (fetchCompleted_broken token pages _ _ _ Hrun fuel w eq_refl Hfuel)
    as (ev & Hev).
  eexists. split; [exact Hev | done].
Qed.


Lemma fetch_page_failure_logged token cursor (w : @world St) error st' :
  page_answer axios token cursor (upstream w) (Failed error) st' ->
  nullish error = false ->
  exists e entry,
    is_page_request e /\ is_log_entry entry /\
    fetch_page axios token cursor w = (Ok None, moved w st' [e; entry]).
Proof.
  intros (query & authorization & Hq & Hb & Hax)%page_answer_sent Hn.
  destruct (query_limit cursor query Hq) as (rest & -> & _).
  unfold fetch_page, try_catch, callRestApi, pbind, lift, send, ret, moved.
  rewrite Hq, Hb, Hax. cbn [log_fetch_failure].
  destruct (get_field_total "response" error Hn) as [r Hr]; [done..|].
  unfold pbind, lift, emit. rewrite Hr.
  destruct (truthy r) eqn:Ht.
  - assert (nullish r = false) as Hnr by (by destruct r).
    destruct (get_field_total "status" r Hnr) as [x1 ->]; [done..|].
    destruct (get_field_total "statusText" r Hnr) as [x2 ->]; [done..|].
    destruct (get_field_total "config" r Hnr) as [x3 ->]; [done..|].
    destruct (get_field_total "data" r Hnr) as [x4 ->]; [done..|].
    cbn. rewrite <- app_assoc. do 2 eexists.
    split; [by exists authorization, rest|]. split; [|done]. by left; eexists.
  - cbn. rewrite <- app_assoc. do 2 eexists.
    split; [by exists authorization, rest|]. split; [|done]. by right; eexists.
Qed.

Lemma fetchCompleted_failure_run token pages :
  forall st cursor st',
    fails_after_pages axios token st cursor pages st' ->
    forall fuel (w : @world St),
      upstream w = st -> length pages < fuel ->
      exists result requests entry,
        fetchCompleted axios fuel token cursor w
        = (Ok result, moved w st' (requests ++ [entry])) /\
        length requests = S (length pages) /\
        Forall is_page_request requests /\ is_log_entry entry.
Proof.
  induction 1 as [st cursor error st' Hans Herr
                 |st cursor page results next st1 pages st' Hans [Hres Hnext]
                    Hmore Hrest IH];
    intros fuel w Hw Hfuel; subst st;
    (destruct fuel as [|fuel]; [simpl in Hfuel; lia|]).
  - destruct (fetch_page_failure_logged token cursor w error st' Hans Herr)
      as (e & entry & He & Hentry & Hfetch).
    exists (VObj [("results", VArr [])]), [e], entry.
    split; [|split; [done | split; [by repeat constructor | done]]].
    cbn [fetchCompleted]. unfold pbind at 1. by rewrite Hfetch.
  - destruct (fetch_page_request token cursor w page _ Hans) as (e & He & Hfetch).
    destruct (IH fuel (moved w st1 [e]) eq_refl)
      as (result & requests & entry & Hrec & Hlen & Hreq & Hentry);
      [simpl in Hfuel; lia|].
    assert (exists rest, get_field "results" result = Ok (VArr rest)
                         /\ True) as (rest & Hrest' & _).
    { clear -Hrest Hrec Hfuel.
      destruct (fetchCompleted_until_failure axios token pages _ _ _ Hrest fuel
                  (moved w st1 [e]) eq_refl) as (ev & Hev);
        [simpl in Hfuel; lia|].
      rewrite Hev in Hrec. injection Hrec as <- _. by eexists. }
    eexists _, (e :: requests), entry.
    split; [|split; [simpl; lia | split; [by constructor | done]]].
    cbn [fetchCompleted]. unfold pbind at 1. rewrite Hfetch.
    unfold pbind at 1, lift at 1. rewrite Hnext, Hmore.
    unfold pbind at 1. rewrite Hrec.
    unfold pbind, lift, ret, moved. rewrite Hres, Hrest'. cbn.
    by rewrite <- app_assoc.
Qed.

(** X10.  A failed request is logged once and ends the pagination: the events of
    a run that fails after k pages are k + 1 page requests followed by one
    log entry, and nothing after it. *)
Theorem fetchCompleted_failure_logged_once
  (token : value) (pages : list (list value)) (st' : St) (fuel : nat)
  (w : world) :
  fails_after_pages axios token (upstream w) VNull pages st' ->
  length pages < fuel ->
  exists result requests entry,
    fetchCompleted axios fuel token VNull w
    = (Ok result, moved w st' (requests ++ [entry])) /\
    length requests = S (length pages) /\
    Forall is_page_request requests /\ is_log_entry entry.
Proof.
  intros Hrun Hfuel.
  exact (fetchCompleted_failure_run token pages _ _ _ Hrun fuel w eq_refl Hfuel).
Qed.

(** *** exportData *)

Lemma exportData_after_sync fuel token format syncData (w : @world St) st1 :
  sync_answer axios token (upstream w) syncData st1 ->
  syncData <> VUndef ->
  exists authorization,
    bearer token = Ok authorization /\
    exportData axios json2csv IS_PRODUCTION fuel token (VStr format) w
    = pbind (lift (call_includes FORMAT_SUFFIX_INCLUDE_ARCHIVED (VStr format)))
        (fun archived : bool =>
           if archived then
             pbind (include_archived axios IS_PRODUCTION fuel token
                      (VStr format) syncData)
               (fun merged =>
                  match merged with
                  | None => ret tt
                  | Some (format', syncData') =>
                      respond json2csv IS_PRODUCTION format' syncData'
                  end)
           else respond json2csv IS_PRODUCTION (VStr format) syncData)
        (moved w st1
           [Requested (Post "sync" authorization (sync_parameters token))]).
Proof.
  intros Hsync Hdef.
  destruct (callApi_sync axios token w syncData st1 Hsync)
    as (authorization & Hb & Hcall).
  exists authorization. split; [done|].
  unfold exportData. unfold pbind at 1. rewrite Hcall.
  by destruct syncData.
Qed.

(** X11.  A plain JSON export passes the payload through: whatever the sync
    request returned, short of [undefined], is sent unchanged as
    [todoist.json], and the sync request is the only request made. *)
Theorem exportData_json_unchanged
  (token syncData : value) (st1 : St) (fuel : nat) (w : world) :
  sync_answer axios token (upstream w) syncData st1 ->
  syncData <> VUndef ->
  exists authorization,
    bearer token = Ok authorization /\
    exportData axios json2csv IS_PRODUCTION fuel token (VStr "json") w
    = (Ok tt,
       {| upstream := st1;
          events := events w ++
            [Requested (Post "sync" authorization (sync_parameters token))];
          res := {| status := status (res w);
                    attachment := Some "todoist.json";
                    body := Some (Json syncData) |} |}).
Proof.
  intros Hsync Hdef.
  destruct (exportData_after_sync fuel token "json" syncData w st1 Hsync Hdef)
    as (authorization & Hb & ->).
  exists authorization. split; [done|]. reflexivity.
Qed.

(** X12.  A format that is neither [json] nor [csv] gets no answer: [exportData]
    returns after the sync request without writing anything on the
    response. *)
Theorem exportData_unknown_format
  (token syncData : value) (format : string) (st1 : St) (fuel : nat)
  (w : world) :
  sync_answer axios token (upstream w) syncData st1 ->
  syncData <> VUndef ->
  includes FORMAT_SUFFIX_INCLUDE_ARCHIVED format = false ->
  format <> "json" -> format <> "csv" ->
  exists authorization,
    bearer token = Ok authorization /\
    exportData axios json2csv IS_PRODUCTION fuel token (VStr format) w
    = (Ok tt,
       moved w st1
         [Requested (Post "sync" authorization (sync_parameters token))]).
Proof.
  intros Hsync Hdef Hinc Hjson Hcsv.
  destruct (exportData_after_sync fuel token format syncData w st1 Hsync Hdef)
    as (authorization & Hb & ->).
  exists authorization. split; [done|].
  unfold pbind, lift. cbn [call_includes]. rewrite Hinc.
  unfold respond. cbn [is_string].
  destruct (String.eqb_spec format "json"); [done|].
  destruct (String.eqb_spec format "csv"); [done|]. done.
Qed.

Lemma exportData_rejected
  (token format : value) (authorization : string) (error : value) (st1 : St)
  (fuel : nat) (w : @world St) :
  bearer token = Ok authorization ->
  axios (upstream w) (Post "sync" authorization (sync_parameters token))
  = (Failed error, st1) ->
  exportData axios json2csv IS_PRODUCTION fuel token format w
  = (Throw (Rejected error),
     moved w st1
       [Requested (Post "sync" authorization (sync_parameters token))]).
Proof.
  intros Hb Hax. unfold exportData, callApi, pbind, lift, send.
  cbn [sync_parameters get_field]. cbn. by rewrite Hb, Hax.
Qed.

(** X13.  When the sync request is rejected, [exportData] throws the rejection
    and leaves the response as it was; when it is answered with no body,
    the error page says so, with the status 500. *)
Theorem exportData_sync_failure
  (token format : value) (authorization : string) (answer : reply) (st1 : St)
  (fuel : nat) (w : world) :
  bearer token = Ok authorization ->
  axios (upstream w) (Post "sync" authorization (sync_parameters token))
  = (answer, st1) ->
  let w1 := moved w st1
              [Requested (Post "sync" authorization (sync_parameters token))] in
  (forall error, answer = Failed error ->
     exportData axios json2csv IS_PRODUCTION fuel token format w
     = (Throw (Rejected error), w1)) /\
  (answer = Resolved VUndef ->
     exportData axios json2csv IS_PRODUCTION fuel token format w
     = (Ok tt,
        {| upstream := st1;
           events := events w1 ++
             [Logged (VStr "Could not fetch data from Todoist.")];
           res := {| status := VNum 500;
                     attachment := attachment (res w);
                     body := Some (Rendered "error"
                       (VStr "Could not fetch data from Todoist.") VUndef) |}
        |})).
Proof.
  intros Hb Hax w1. split.
  - intros error ->. by apply exportData_rejected.
  - intros ->. unfold exportData, callApi, pbind, lift, send.
    cbn [sync_parameters get_field]. cbn. rewrite Hb, Hax. cbn.
    by destruct IS_PRODUCTION.
Qed.

(** X14.  An archived export in general.  For a format in which the suffix first
    occurs after [pre], a premium user and a completed-task history of any
    number of pages, [exportData] goes on with the format stripped of that
    occurrence and with the Snapshot in which [completed.results] holds the
    records of all pages and [items] the live Items followed by them. *)
Theorem exportData_archived
  (token syncData user premium : value) (live : list value)
  (pages : list (list value)) (pre post : string)
  (st1 st2 : St) (fuel : nat) (w : world) :
  sync_answer axios token (upstream w) syncData st1 ->
  get_field "user" syncData = Ok user ->
  get_field "is_premium" user = Ok premium ->
  truthy premium = true ->
  get_field "items" syncData = Ok (VArr live) ->
  serves_pages axios token st1 VNull pages st2 ->
  length pages <= fuel ->
  includes FORMAT_SUFFIX_INCLUDE_ARCHIVED pre = false ->
  exists authorization ev o,
    syncData = VObj o /\
    exportData axios json2csv IS_PRODUCTION fuel token
      (VStr (pre ++ FORMAT_SUFFIX_INCLUDE_ARCHIVED ++ post)) w
    = respond json2csv IS_PRODUCTION (VStr (pre ++ post))
        (VObj (obj_set "items" (VArr (live ++ concat pages))
                 (obj_set "completed"
                    (VObj [("results", VArr (concat pages))]) o)))
        (moved (moved w st1
                  [Requested (Post "sync" authorization
                                (sync_parameters token))]) st2 ev).
Proof.
  intros Hsync Huser Hprem Htrue Hitems Hpages Hfuel Hpre.
  destruct (array_field_of_object _ _ _ Hitems) as (o & -> & Ho).
  destruct (exportData_after_sync fuel token
              (pre ++ FORMAT_SUFFIX_INCLUDE_ARCHIVED ++ post) (VObj o) w st1
              Hsync) as (authorization & Hb & ->); [done|].
  set (w1 := moved w st1 _).
  destruct (fetchCompleted_pages axios token pages _ _ _ Hpages fuel w1
              eq_refl Hfuel) as [ev Hfetch].
  exists authorization, ev, o. split; [done|].
  destruct (suffix_gate pre post Hpre) as (Hinc & Hrep).
  unfold pbind at 1, lift at 1. rewrite Hinc.
  unfold pbind at 1, include_archived.
  unfold pbind at 1, lift at 1. rewrite Huser.
  unfold pbind at 1, lift at 1. rewrite Hprem, Htrue. cbn [negb].
  unfold pbind at 1, lift at 1. rewrite Hrep.
  unfold pbind at 1. rewrite Hfetch.
  set (completed := VObj [("results", VArr (concat pages))]).
  unfold pbind, lift, ret. cbn [set_field get_field].
  assert (obj_get "items" (obj_set "completed" completed o)
          = Some (VArr live)) as -> by (by rewrite obj_get_set_ne).
  by cbn.
Qed.

(** X15.  The CSV branch end to end.  On a Snapshot of records whose Items have
    labels and contents the sanitizer accepts, [exportData] hands the
    encoder one row per Item, in order, and each field of a row is what its
    own transform computes on the Item as it came: the resolvers and the
    sanitizer do not disturb one another. *)
Theorem exportData_csv_rows
  (token syncData : value) (items : list value) (st1 : St) (fuel : nat)
  (w : world) :
  sync_answer axios token (upstream w) syncData st1 ->
  is_snapshot syncData = true ->
  get_field "items" syncData = Ok (VArr items) ->
  Forall content_converts items ->
  Forall labels_convert items ->
  exists authorization (m u : gmap string value) rows,
    bearer token = Ok authorization /\
    project_table syncData = Ok m /\ user_table syncData = Ok u /\
    exportData axios json2csv IS_PRODUCTION fuel token (VStr "csv") w
    = send_csv json2csv IS_PRODUCTION (VArr rows)
        (moved w st1
           [Requested (Post "sync" authorization (sync_parameters token))]) /\
    Forall2 (fun item row =>
      get_field "project_id" row = project_name m item /\
      (forall role, role ∈ user_roles ->
                    get_field role row = user_name u role item) /\
      get_field "labels" row = escaped_labels item /\
      get_field "content" row = escaped_content item) items rows.
Proof.
  intros Hsync Hs Hitems Hcontent Hlabels.
  destruct (is_snapshot_parts syncData Hs)
    as (m & u & items' & Hm & Hu & Hi & HF & _).
  rewrite Hitems in Hi. injection Hi as <-.
  rewrite forallb_forall in HF.
  rewrite Forall_forall in Hcontent, Hlabels.
  destruct (mapM_Forall2 (csv_row m u) (fun item row =>
      get_field "project_id" row = project_name m item /\
      (forall role, role ∈ user_roles ->
                    get_field role row = user_name u role item) /\
      get_field "labels" row = escaped_labels item /\
      get_field "content" row = escaped_content item) items)
    as (rows & Hrows & HR).
  { apply Forall_forall. intros item Hin.
    pose proof Hin as Hin'. apply list_elem_of_In in Hin'.
    destruct (is_item_references item (HF item Hin')) as (Hp & Ha & Hb & Hc).
    apply csv_row_Ok; auto.
    - by apply project_name_total.
    - intros role Hrole. unfold user_roles in Hrole.
      rewrite !elem_of_cons, elem_of_nil in Hrole.
      destruct Hrole as [-> | [-> | [-> | []]]]; by apply user_name_total. }
  assert (syncData <> VUndef) as Hdef by (by intros ->).
  destruct (exportData_after_sync fuel token "csv" syncData w st1 Hsync Hdef)
    as (authorization & Hb & ->).
  exists authorization, m, u, rows. split_and!; try done.
  pose proof (csv_rows_fused syncData m u items rows Hm Hu Hitems Hrows) as Hfused.
  unfold pbind at 1, lift at 1. cbn [call_includes].
  assert (includes FORMAT_SUFFIX_INCLUDE_ARCHIVED "csv" = false) as ->
    by reflexivity.
  rewrite respond_csv. fold (csv_rows syncData). rewrite Hfused.
  reflexivity.
Qed.


(** X17.  The CSV branch needs the collections.  When the payload has no array
    of Projects, [exportData] throws the [TypeError] of [reduce] for the
    format [csv] and writes nothing on the response, while the same payload
    is sent as it is for the format [json]. *)
Theorem exportData_csv_without_projects
  (token syncData projects : value) (st1 : St) (fuel : nat) (w : @world St) :
  sync_answer axios token (upstream w) syncData st1 ->
  get_field "projects" syncData = Ok projects ->
  (forall l, projects <> VArr l) ->
  exists authorization,
    bearer token = Ok authorization /\
    exportData axios json2csv IS_PRODUCTION fuel token (VStr "csv") w
    = (Throw TypeError,
       moved w st1
         [Requested (Post "sync" authorization (sync_parameters token))]).
Proof.
  intros Hsync Hp Hnot.
  assert (syncData <> VUndef) as Hdef by (by intros ->).
  destruct (exportData_after_sync fuel token "csv" syncData w st1 Hsync Hdef)
    as (authorization & Hb & ->).
  exists authorization. split; [done|].
  unfold pbind at 1, lift at 1. cbn [call_includes].
  assert (includes FORMAT_SUFFIX_INCLUDE_ARCHIVED "csv" = false) as ->
    by reflexivity.
  rewrite respond_csv. unfold pbind, lift, reassign_items.
  assert (convertProjectNames syncData = Throw TypeError) as ->; [|done].
  unfold convertProjectNames, project_table. rewrite Hp. cbn [bind].
  destruct projects; try done. by destruct (Hnot l).
Qed.

(** *** renderErrorPage and the routes *)

(** X18.  The error page is always rendered.  Whatever the message and the
    error, [renderErrorPage] throws nothing, logs one entry, sets a truthy
    status and hands the view the error only outside production.  The
    status is the status of the error when the error and that status are
    truthy, and 500 in every other case: no error, or an error whose
    status is missing or falsy.  The entry logged is the message of the
    error when it has a truthy one, else the error, and with no error the
    message of the page. *)
Theorem renderErrorPage_always_renders (message error : value) (w : @world St) :
  exists what code,
    renderErrorPage IS_PRODUCTION message error w
    = (Ok tt,
       {| upstream := upstream w;
          events := events w ++ [Logged what];
          res := {| status := code;
                    attachment := attachment (res w);
                    body := Some (Rendered "error" message
                              (if IS_PRODUCTION then VUndef else error)) |}
       |}) /\
    truthy code = true /\
    (truthy error = false -> code = VNum 500 /\ what = message) /\
    (forall s, get_field "status" error = Ok s -> truthy error = true ->
               truthy s = true -> code = s) /\
    (forall s, get_field "status" error = Ok s -> truthy error = true ->
               truthy s = false -> code = VNum 500) /\
    (truthy error = true ->
     exists s m,
       get_field "status" error = Ok s /\
       get_field "message" error = Ok m /\
       (truthy m = true -> what = m) /\
       (truthy m = false -> what = error)).
Proof.
  unfold renderErrorPage, pbind, lift, emit, res_status, res_body, update_res.
  destruct (truthy error) eqn:Ht.
  - assert (nullish error = false) as Hn by (by destruct error).
    destruct (get_field_total "message" error Hn) as [m Hm]; [done..|].
    destruct (get_field_total "status" error Hn) as [s Hs]; [done..|].
    rewrite Hm, Hs. cbn. do 2 eexists. split; [reflexivity|].
    unfold js_or. split_and!.
    + by destruct (truthy s) eqn:E.
    + discriminate.
    + intros s' Hs' _ Hts. injection Hs' as <-. by rewrite Hts.
    + intros s' Hs' _ Hts. injection Hs' as <-. by rewrite Hts.
    + intros _. exists s, m. split_and!; try done; by intros ->.
  - cbn. do 2 eexists. split; [reflexivity|]. split_and!; try done.
Qed.

(** X19.  A request to [/export] without a [code] is answered with the status
    400 and the message [Parameter missing: code], and the token exchange
    is not attempted. *)
Theorem export_route_missing_code (query code : value) (w : @world St) :
  get_field "code" query = Ok code ->
  truthy code = false ->
  export_route IS_PRODUCTION getToken query w
  = (Ok Replied,
     {| upstream := upstream w;
        events := events w ++ [Logged (VObj [("status", VNum 400)])];
        res := {| status := VNum 400;
                  attachment := attachment (res w);
                  body := Some (Rendered "error"
                            (VStr "Parameter missing: code")
                            (if IS_PRODUCTION then VUndef
                             else VObj [("status", VNum 400)])) |} |}).
Proof.
  intros Hc Hf. unfold export_route. unfold pbind at 1, lift at 1.
  rewrite Hc, Hf. cbn [negb]. reflexivity.
Qed.

(** X20.  After a successful token exchange [/export] redirects to the front page
    with the token and the format of its own query, [json] when there is
    none; the [state] the authorization came back with is not read. *)
Theorem export_route_redirect
  (query code authResponse token chosen : value) (t f : string)
  (st' : St) (w : @world St) :
  get_field "code" query = Ok code ->
  truthy code = true ->
  getToken (upstream w) (VObj [("code", code)]) = (Resolved authResponse, st') ->
  get_field "access_token" authResponse = Ok token ->
  to_string token = Ok t ->
  get_field "format" query = Ok chosen ->
  to_string (js_or chosen (VStr "json")) = Ok f ->
  export_route IS_PRODUCTION getToken query w
  = (Ok (Redirected ("/todoist-export?token=" ++ t ++ "&format=" ++ f)),
     moved w st' []) /\
  forall o state,
    query = VObj o ->
    export_route IS_PRODUCTION getToken (VObj (obj_set "state" state o)) w
    = export_route IS_PRODUCTION getToken query w.
Proof.
  intros Hc Ht Htok Hat Hts Hf Hfs.
  assert (forall q, get_field "code" q = Ok code ->
                    get_field "format" q = Ok chosen ->
                    export_route IS_PRODUCTION getToken q w
                    = (Ok (Redirected ("/todoist-export?token=" ++ t
                                       ++ "&format=" ++ f)),
                       moved w st' [])) as Hrun.
  { intros q Hqc Hqf. unfold export_route. unfold pbind at 1, lift at 1.
    rewrite Hqc, Ht. cbn [negb].
    unfold try_catch, pbind, lift, ret, exchange, moved.
    rewrite Htok, Hat, Hqf, Hts, Hfs. by rewrite app_nil_r. }
  split; [by apply Hrun|].
  intros o state ->. rewrite (Hrun (VObj o)) by done. apply Hrun.
  - cbn [get_field] in *. by rewrite obj_get_set_ne.
  - cbn [get_field] in *. by rewrite obj_get_set_ne.
Qed.

(** X21.  A rejected token exchange is reported with the status 500 whatever the
    status the rejection carries: the route passes the error as the message
    of the page, not as its error. *)
Theorem export_route_exchange_failure
  (query code error : value) (st' : St) (w : @world St) :
  get_field "code" query = Ok code ->
  truthy code = true ->
  getToken (upstream w) (VObj [("code", code)]) = (Failed error, st') ->
  export_route IS_PRODUCTION getToken query w
  = (Ok Replied,
     {| upstream := st';
        events := events w ++ [Logged error];
        res := {| status := VNum 500;
                  attachment := attachment (res w);
                  body := Some (Rendered "error" error VUndef) |} |}).
Proof.
  intros Hc Ht Htok. unfold export_route. unfold pbind at 1, lift at 1.
  rewrite Hc, Ht. cbn [negb].
  unfold try_catch, pbind, lift, ret, exchange. rewrite Htok. cbn.
  by destruct IS_PRODUCTION.
Qed.

(** X22.  [/download] turns a rejected sync request into an error page: the
    message is the error's message, or [Unexpected error.] when it has
    none, and the status is the error's status, or 500. *)
Theorem download_route_sync_rejected
  (query token format : value) (authorization : string)
  (error : list (string * value)) (st1 : St) (fuel : nat) (w : @world St) :
  get_field "token" query = Ok token ->
  get_field "format" query = Ok format ->
  bearer token = Ok authorization ->
  axios (upstream w) (Post "sync" authorization (sync_parameters token))
  = (Failed (VObj error), st1) ->
  exists message code,
    get_field "message" (VObj error) = Ok message /\
    get_field "status" (VObj error) = Ok code /\
    download_route axios json2csv IS_PRODUCTION fuel query w
    = (Ok tt,
       {| upstream := st1;
          events := events w ++
            [Requested (Post "sync" authorization (sync_parameters token));
             Logged (if truthy message then message else VObj error)];
          res := {| status := js_or code (VNum 500);
                    attachment := attachment (res w);
                    body := Some (Rendered "error"
                              (js_or message (VStr "Unexpected error."))
                              (if IS_PRODUCTION then VUndef
                               else VObj error)) |} |}).
Proof.
  intros Hq Hf Hb Hax.
  destruct (get_field_total "message" (VObj error) eq_refl) as [m Hm]; [done..|].
  destruct (get_field_total "status" (VObj error) eq_refl) as [c Hc]; [done..|].
  exists m, c. split; [done|]. split; [done|].
  unfold download_route, try_catch. unfold pbind at 1, lift at 1. rewrite Hq.
  unfold pbind at 1, lift at 1. rewrite Hf.
  rewrite (exportData_rejected token format authorization (VObj error) st1
             fuel w Hb Hax).
  unfold pbind at 1, lift at 1. rewrite Hm.
  unfold renderErrorPage, pbind, lift, emit, res_status, res_body, update_res,
    moved.
  cbn [truthy]. rewrite Hm, Hc. cbn. by rewrite <- app_assoc.
Qed.

(** X23.  The suffix travels from the [/auth] route to [exportData] and back off:
    for a chosen format [f] that does not itself contain the suffix (or no
    chosen format, which stands for [json]), the state built with the
    archive box ticked passes the gate of [exportData] and is stripped back
    to [f]; the state built without it does not pass the gate. *)
Theorem archived_suffix_round_trip
  (body chosen archived : value) (f : string) (w : @world St) :
  get_field "format" body = Ok chosen ->
  get_field "archived" body = Ok archived ->
  (chosen = VStr f /\ f <> "") \/ (truthy chosen = false /\ f = "json") ->
  includes FORMAT_SUFFIX_INCLUDE_ARCHIVED f = false ->
  exists state,
    auth_route authorizeURL body w
    = (Ok (Redirected (authorizeURL (VObj [("scope", VStr "data:read");
                                           ("state", VStr state)]))), w) /\
    call_includes FORMAT_SUFFIX_INCLUDE_ARCHIVED (VStr state)
    = Ok (truthy archived) /\
    (truthy archived = true ->
     state = f ++ FORMAT_SUFFIX_INCLUDE_ARCHIVED /\
     call_replace FORMAT_SUFFIX_INCLUDE_ARCHIVED "" (VStr state)
     = Ok (VStr f)) /\
    (truthy archived = false -> state = f).
Proof.
  intros Hf Ha Hchosen Hclean.
  assert (js_or chosen (VStr "json") = VStr f) as Hformat.
  { unfold js_or. destruct Hchosen as [[-> Hne] | [-> ->]]; [|done].
    simpl. by destruct (String.eqb_spec f ""). }
  unfold auth_route, pbind, lift, ret, auth_state.
  rewrite Hf. cbn [bind]. rewrite Ha. cbn [bind].
  rewrite Hformat. destruct (truthy archived) eqn:Ht.
  - exists (f ++ FORMAT_SUFFIX_INCLUDE_ARCHIVED). split; [done|]. split.
    + cbn [call_includes]. f_equal. apply includes_occurrence.
      exists f, "". by rewrite append_empty_r.
    + split; [|done]. intros _. split; [done|].
      cbn [call_replace]. by rewrite strip_appended_suffix.
  - exists f. split; [done|]. split; [|split; [done|done]].
    cbn [call_includes]. by rewrite Hclean.
Qed.

End RouteFacts.

(** *** The further properties at sample data *)

Lemma archived_suffix_anywhere_witness :
  call_includes FORMAT_SUFFIX_INCLUDE_ARCHIVED (VStr "json_all_all") = Ok true /\
  call_replace FORMAT_SUFFIX_INCLUDE_ARCHIVED "" (VStr "json_all_all")
  = Ok (VStr "json_all") /\
  (includes FORMAT_SUFFIX_INCLUDE_ARCHIVED "_all" = true ->
   call_includes FORMAT_SUFFIX_INCLUDE_ARCHIVED (VStr "json_all") = Ok true).
Proof. apply (archived_suffix_anywhere "json" "_all"). reflexivity. Defined.

Lemma archived_suffix_round_trip_witness :
  exists state,
    auth_route sample_authorizeURL
      (VObj [("format", VStr "csv"); ("archived", VStr "on")]) (start [])
    = (Ok (Redirected (sample_authorizeURL
                         (VObj [("scope", VStr "data:read");
                                ("state", VStr state)]))), start []) /\
    call_includes FORMAT_SUFFIX_INCLUDE_ARCHIVED (VStr state)
    = Ok (truthy (VStr "on")) /\
    (truthy (VStr "on") = true ->
     state = "csv" ++ FORMAT_SUFFIX_INCLUDE_ARCHIVED /\
     call_replace FORMAT_SUFFIX_INCLUDE_ARCHIVED "" (VStr state)
     = Ok (VStr "csv")) /\
    (truthy (VStr "on") = false -> state = "csv").
Proof.
  apply (archived_suffix_round_trip sample_authorizeURL
           (VObj [("format", VStr "csv"); ("archived", VStr "on")])
           (VStr "csv") (VStr "on") "csv" (start [])).
  - reflexivity.
  - reflexivity.
  - left. split; [reflexivity | discriminate].
  - reflexivity.
Defined.

Lemma convertProjectNames_resolves_witness :
  exists out,
    convertProjectNames sample_snapshot = Ok out /\
    Forall2 (fun item resolved =>
      forall id, get_field "project_id" item = Ok id ->
                 to_string id = Ok "1" ->
                 get_field "project_id" resolved = Ok (VStr "Work"))
      [sample_task; bare_task] out.
Proof.
  apply (convertProjectNames_resolves sample_snapshot [] []
           [sample_task; bare_task]
           (VObj [("id", VNum 1); ("name", VStr "Work")]) (VStr "Work") "1");
    reflexivity.
Defined.

Lemma convertUserNames_resolves_witness :
  exists out,
    convertUserNames team_snapshot = Ok out /\
    Forall2 (fun item resolved =>
      forall role id,
        role ∈ user_roles ->
        get_field role item = Ok id ->
        to_string id = Ok "3" ->
        get_field role resolved
        = Ok (if truthy (VStr "") then VStr "" else VNull))
      [bare_task] out.
Proof.
  apply (convertUserNames_resolves team_snapshot
           [VObj [("id", VNum 2); ("full_name", VStr "Ada")]] [] [bare_task]
           (VObj [("id", VNum 3); ("full_name", VStr "")]) (VStr "") "3");
    reflexivity.
Defined.

Lemma fetchCompleted_missing_results_witness :
  exists w',
    fetchCompleted scripted 2 (VStr "tok") VNull
      (start [Resolved (VObj [("next_cursor", VStr "c1")]);
              Resolved (page_value [VNum 3] VNull)])
    = (Ok (VObj [("results", VArr [VNum 3])]), w') /\
    upstream w' = [].
Proof.
  apply (fetchCompleted_missing_results scripted (VStr "tok")
           [VObj [("next_cursor", VStr "c1")]; page_value [VNum 3] VNull]
           [] 2
           (start [Resolved (VObj [("next_cursor", VStr "c1")]);
                   Resolved (page_value [VNum 3] VNull)])).
  - eapply answers_next.
    + asked_and_answered.
    + reflexivity.
    + reflexivity.
    + eapply answers_last.
      * asked_and_answered.
      * reflexivity.
      * reflexivity.
  - constructor; [|constructor; [|constructor]].
    + exists VUndef. split; [reflexivity | by right].
    + exists (VArr [VNum 3]). split; [reflexivity | left; by eexists].
  - simpl. lia.
Defined.

Lemma fetchCompleted_requests_witness :
  exists result ev,
    fetchCompleted scripted 2 (VStr "tok") VNull
      (start [Resolved (page_value [VNum 1; VNum 2] (VStr "c1"));
              Resolved (page_value [VNum 3] VNull)])
    = (Ok result,
       moved (start [Resolved (page_value [VNum 1; VNum 2] (VStr "c1"));
                     Resolved (page_value [VNum 3] VNull)]) [] ev) /\
    length ev = 2 /\
    Forall is_page_request ev.
Proof.
  apply (fetchCompleted_requests scripted (VStr "tok")
           [page_value [VNum 1; VNum 2] (VStr "c1"); page_value [VNum 3] VNull]
           [] 2
           (start [Resolved (page_value [VNum 1; VNum 2] (VStr "c1"));
                   Resolved (page_value [VNum 3] VNull)])).
  - eapply answers_next.
    + asked_and_answered.
    + reflexivity.
    + reflexivity.
    + eapply answers_last.
      * asked_and_answered.
      * reflexivity.
      * reflexivity.
  - constructor; [|constructor; [|constructor]];
      (eexists; split; [reflexivity | left; by eexists]).
  - simpl. lia.
Defined.

Lemma fetchCompleted_malformed_page_witness :
  exists w',
    fetchCompleted scripted 2 (VStr "tok") VNull
      (start [Resolved (page_value [VNum 1; VNum 2] (VStr "c1"));
              Resolved VNull])
    = (Throw TypeError, w') /\
    upstream w' = [] /\ res w' = fresh_response.
Proof.
  apply (fetchCompleted_malformed_page scripted (VStr "tok")
           [[VNum 1; VNum 2]] [] 2
           (start [Resolved (page_value [VNum 1; VNum 2] (VStr "c1"));
                   Resolved VNull])).
  - eapply breaks_later.
    + asked_and_answered.
    + split; reflexivity.
    + reflexivity.
    + eapply breaks_now.
      * asked_and_answered.
      * reflexivity.
  - simpl. lia.
Defined.

Lemma fetchCompleted_failure_logged_once_witness :
  exists result requests entry,
    fetchCompleted scripted 2 (VStr "tok") VNull
      (start [Resolved (page_value [VNum 1; VNum 2] (VStr "c1"))])
    = (Ok result,
       moved (start [Resolved (page_value [VNum 1; VNum 2] (VStr "c1"))]) []
             (requests ++ [entry])) /\
    length requests = 2 /\
    Forall is_page_request requests /\ is_log_entry entry.
Proof.
  apply (fetchCompleted_failure_logged_once scripted (VStr "tok")
           [[VNum 1; VNum 2]] [] 2
           (start [Resolved (page_value [VNum 1; VNum 2] (VStr "c1"))])).
  - eapply fails_later.
    + asked_and_answered.
    + split; reflexivity.
    + reflexivity.
    + eapply fails_now.
      * asked_and_answered.
      * reflexivity.
  - simpl. lia.
Defined.

Lemma exportData_json_unchanged_witness :
  exists authorization,
    bearer (VStr "tok") = Ok authorization /\
    exportData scripted no_csv false 1 (VStr "tok") (VStr "json")
      (start [Resolved VNull])
    = (Ok tt,
       {| upstream := [];
          events :=
            [Requested (Post "sync" authorization
                          (sync_parameters (VStr "tok")))];
          res := {| status := VNum 200;
                    attachment := Some "todoist.json";
                    body := Some (Json VNull) |} |}).
Proof.
  apply (exportData_json_unchanged scripted no_csv false (VStr "tok") VNull []
           1 (start [Resolved VNull])).
  - eexists. split; reflexivity.
  - discriminate.
Defined.

Lemma exportData_unknown_format_witness :
  exists authorization,
    bearer (VStr "tok") = Ok authorization /\
    exportData scripted no_csv false 1 (VStr "tok") (VStr "xml")
      (start [Resolved sample_snapshot])
    = (Ok tt,
       moved (start [Resolved sample_snapshot]) []
         [Requested (Post "sync" authorization
                       (sync_parameters (VStr "tok")))]).
Proof.
  apply (exportData_unknown_format scripted no_csv false (VStr "tok")
           sample_snapshot "xml" [] 1 (start [Resolved sample_snapshot])).
  - eexists. split; reflexivity.
  - discriminate.
  - reflexivity.
  - discriminate.
  - discriminate.
Defined.

Lemma exportData_sync_failure_witness :
  exportData scripted no_csv false 1 (VStr "tok") (VStr "csv") (start [])
  = (Throw (Rejected (VObj [("message", VStr "Network Error")])),
     moved (start []) []
       [Requested (Post "sync" "Bearer tok" (sync_parameters (VStr "tok")))]).
Proof.
  destruct (exportData_sync_failure scripted no_csv false (VStr "tok")
              (VStr "csv") "Bearer tok"
              (Failed (VObj [("message", VStr "Network Error")])) [] 1
              (start []) eq_refl eq_refl) as [H _].
  exact (H _ eq_refl).
Defined.

Lemma exportData_archived_witness :
  exists authorization ev o,
    account true [sample_task] = VObj o /\
    exportData scripted no_csv false 1 (VStr "tok") (VStr "json_all_all")
      (start [Resolved (account true [sample_task]);
              Resolved (page_value [VNum 3] VNull)])
    = respond no_csv false (VStr "json_all")
        (VObj (obj_set "items" (VArr ([sample_task] ++ concat [[VNum 3]]))
                 (obj_set "completed"
                    (VObj [("results", VArr (concat [[VNum 3]]))]) o)))
        (moved (moved (start [Resolved (account true [sample_task]);
                              Resolved (page_value [VNum 3] VNull)])
                  [Resolved (page_value [VNum 3] VNull)]
                  [Requested (Post "sync" authorization
                                (sync_parameters (VStr "tok")))]) [] ev).
Proof.
  apply (exportData_archived scripted no_csv false (VStr "tok")
           (account true [sample_task]) (VObj [("is_premium", VBool true)])
           (VBool true) [sample_task] [[VNum 3]] "json" "_all"
           [Resolved (page_value [VNum 3] VNull)] [] 1
           (start [Resolved (account true [sample_task]);
                   Resolved (page_value [VNum 3] VNull)])).
  - eexists. split; reflexivity.
  - reflexivity.
  - reflexivity.
  - reflexivity.
  - reflexivity.
  - eapply serves_last.
    + asked_and_answered.
    + split; reflexivity.
    + reflexivity.
  - simpl. lia.
  - reflexivity.
Defined.

Lemma exportData_csv_rows_witness :
  exists authorization (m u : gmap string value) rows,
    bearer (VStr "tok") = Ok authorization /\
    project_table sample_snapshot = Ok m /\
    user_table sample_snapshot = Ok u /\
    exportData scripted no_csv false 1 (VStr "tok") (VStr "csv")
      (start [Resolved sample_snapshot])
    = send_csv no_csv false (VArr rows)
        (moved (start [Resolved sample_snapshot]) []
           [Requested (Post "sync" authorization
                         (sync_parameters (VStr "tok")))]) /\
    Forall2 (fun item row =>
      get_field "project_id" row = project_name m item /\
      (forall role, role ∈ user_roles ->
                    get_field role row = user_name u role item) /\
      get_field "labels" row = escaped_labels item /\
      get_field "content" row = escaped_content item)
      [sample_task; bare_task] rows.
Proof.
  apply (exportData_csv_rows scripted no_csv false (VStr "tok")
           sample_snapshot [sample_task; bare_task] [] 1
           (start [Resolved sample_snapshot])).
  - eexists. split; reflexivity.
  - reflexivity.
  - reflexivity.
  - repeat constructor; eexists; reflexivity.
  - repeat constructor; eexists; reflexivity.
Defined.

Lemma exportData_csv_without_projects_witness :
  exists authorization,
    bearer (VStr "tok") = Ok authorization /\
    exportData scripted no_csv false 1 (VStr "tok") (VStr "csv")
      (start [Resolved (VObj [("items", VArr [])])])
    = (Throw TypeError,
       moved (start [Resolved (VObj [("items", VArr [])])]) []
         [Requested (Post "sync" authorization
                       (sync_parameters (VStr "tok")))]).
Proof.
  apply (exportData_csv_without_projects scripted no_csv false (VStr "tok")
           (VObj [("items", VArr [])]) VUndef [] 1
           (start [Resolved (VObj [("items", VArr [])])])).
  - eexists. split; reflexivity.
  - reflexivity.
  - discriminate.
Defined.

Lemma export_route_missing_code_witness :
  export_route false scripted_token (VObj [("state", VStr "json")])
    (start [])
  = (Ok Replied,
     {| upstream := [];
        events := [Logged (VObj [("status", VNum 400)])];
        res := {| status := VNum 400;
                  attachment := None;
                  body := Some (Rendered "error"
                            (VStr "Parameter missing: code")
                            (VObj [("status", VNum 400)])) |} |}).
Proof.
  apply (export_route_missing_code false scripted_token
           (VObj [("state", VStr "json")]) VUndef (start []));
    reflexivity.
Defined.

Lemma export_route_redirect_witness :
  export_route false scripted_token
    (VObj [("code", VStr "abc"); ("state", VStr "csv_all")])
    (start [Resolved (VObj [("access_token", VStr "tok")])])
  = (Ok (Redirected ("/todoist-export?token=" ++ "tok" ++ "&format=" ++ "json")),
     moved (start [Resolved (VObj [("access_token", VStr "tok")])]) [] []).
Proof.
  apply (export_route_redirect false scripted_token
           (VObj [("code", VStr "abc"); ("state", VStr "csv_all")])
           (VStr "abc") (VObj [("access_token", VStr "tok")]) (VStr "tok")
           VUndef "tok" "json" []
           (start [Resolved (VObj [("access_token", VStr "tok")])]));
    reflexivity.
Defined.

Lemma export_route_exchange_failure_witness :
  export_route false scripted_token (VObj [("code", VStr "abc")])
    (start [Failed (VObj [("status", VNum 401)])])
  = (Ok Replied,
     {| upstream := [];
        events := [Logged (VObj [("status", VNum 401)])];
        res := {| status := VNum 500;
                  attachment := None;
                  body := Some (Rendered "error"
                            (VObj [("status", VNum 401)]) VUndef) |} |}).
Proof.
  apply (export_route_exchange_failure false scripted_token
           (VObj [("code", VStr "abc")]) (VStr "abc")
           (VObj [("status", VNum 401)]) []
           (start [Failed (VObj [("status", VNum 401)])]));
    reflexivity.
Defined.

Lemma download_route_sync_rejected_witness :
  exists message code,
    get_field "message"
      (VObj [("message", VStr "Forbidden"); ("status", VNum 403)])
    = Ok message /\
    get_field "status"
      (VObj [("message", VStr "Forbidden"); ("status", VNum 403)])
    = Ok code /\
    download_route scripted no_csv false 1
      (VObj [("token", VStr "tok"); ("format", VStr "json")])
      (start [Failed (VObj [("message", VStr "Forbidden");
                            ("status", VNum 403)])])
    = (Ok tt,
       {| upstream := [];
          events :=
            [Requested (Post "sync" "Bearer tok"
                          (sync_parameters (VStr "tok")));
             Logged (if truthy message then message
                     else VObj [("message", VStr "Forbidden");
                                ("status", VNum 403)])];
          res := {| status := js_or code (VNum 500);
                    attachment := None;
                    body := Some (Rendered "error"
                              (js_or message (VStr "Unexpected error."))
                              (VObj [("message", VStr "Forbidden");
                                     ("status", VNum 403)])) |} |}).
Proof.
  apply (download_route_sync_rejected scripted no_csv false
           (VObj [("token", VStr "tok"); ("format", VStr "json")])
           (VStr "tok") (VStr "json") "Bearer tok"
           [("message", VStr "Forbidden"); ("status", VNum 403)] [] 1
           (start [Failed (VObj [("message", VStr "Forbidden");
                                 ("status", VNum 403)])]));
    reflexivity.
Defined.
